(** * pytorch-widedeep: SAINT and AttentiveRNN

    A shallow embedding of the two model components
    [pytorch_widedeep/models/tabular/transformers/saint.py] and
    [pytorch_widedeep/models/text/attentive_rnn.py].

    Python integers are [Z], Python strings are byte strings, a [Dict] is a
    [gmap], a float argument is a rational, and a raised exception is the
    [Err] case of [result].  A local variable or an attribute that a path
    may leave unassigned is an [option], and reading it where it is [None]
    raises as Python does.  A torch tensor is its shape together with an
    indexing function over an arbitrary scalar type [R]; the torch
    operations used by the two files are written out on that
    representation, with the errors torch raises on incompatible shapes.

    The layers that the two files only call (the embedding composer, the
    SAINT encoder block, the dense head, the context attention and the
    torch recurrent and embedding layers) are an interface,
    [Collaborators], that carries their shape contracts; their trained
    parameters are fixed and dropout is disabled, so that a layer is a
    function of its input; what a layer raises when it fails is kept apart
    from the exceptions of the two files' own statements.  The
    constructors of the layers are taken to return.  A pretrained
    embedding matrix is a two-dimensional array, of which only the element
    type and the shape matter to the constructor. *)

From Stdlib Require Import ZArith QArith String Ascii List Lia.
From stdpp Require Import base tactics option list list_numbers strings pretty gmap.

Open Scope string_scope.
Open Scope list_scope.
Open Scope Z_scope.

(** ** Python exceptions and results

    The exception classes that the statements of the two files raise
    themselves, and [LayerError] for what a called layer raises. *)

Inductive exn : Type :=
  | ValueError (msg : string)
  | AssertionError (msg : string)
  | UnboundLocalError (var : string)
  | IndexError (msg : string)
  | AttributeError (attr : string)
  | RuntimeError (msg : string)
  | LayerError (layer : string).

Inductive result (A : Type) : Type :=
  | Ok (a : A)
  | Err (e : exn).
Arguments Ok {A} a.
Arguments Err {A} e.

Definition result_bind {A B : Type} (f : A → result B) (m : result A) : result B :=
  match m with
  | Ok a => f a
  | Err e => Err e
  end.

#[global] Instance result_ret : MRet result := λ A a, Ok a.
#[global] Instance result_mbind : MBind result := λ A B f m, result_bind f m.
#[global] Instance result_fmap : FMap result :=
  λ A B f m, match m with Ok a => Ok (f a) | Err e => Err e end.

Definition is_Ok {A : Type} (m : result A) : bool :=
  match m with Ok _ => true | Err _ => false end.

(** Reading a local variable that may not have been assigned on the path
    taken: Python raises [UnboundLocalError]. *)
Definition read_local {A : Type} (name : string) (v : option A) : result A :=
  match v with
  | Some a => Ok a
  | None => Err (UnboundLocalError name)
  end.

(** Reading an instance attribute that may not have been set. *)
Definition read_attr {A : Type} (name : string) (v : option A) : result A :=
  match v with
  | Some a => Ok a
  | None => Err (AttributeError name)
  end.

(** A call into a layer that is not part of the two files.  When the
    layer raises, the call raises what the layer raised, of whatever
    class; [LayerError] stands for that exception and records the layer
    it came from. *)
Definition call {A : Type} (layer : string) (v : option A) : result A :=
  match v with
  | Some a => Ok a
  | None => Err (LayerError layer)
  end.

(** Python's index normalisation for a sequence of length [n]: a negative
    index counts from the end, anything outside [-n, n) is an [IndexError]. *)
Definition py_index (n : nat) (i : Z) : result nat :=
  let j := if i <? 0 then i + Z.of_nat n else i in
  if (0 <=? j) && (j <? Z.of_nat n) then Ok (Z.to_nat j)
  else Err (IndexError "index out of range").

(** [l[i]] on a Python list. *)
Definition list_getitem {A : Type} (l : list A) (i : Z) : result A :=
  j ← py_index (length l) i;
  match l !! j with
  | Some a => Ok a
  | None => Err (IndexError "index out of range")
  end.

(** [str.lower()] on the ASCII letters; every other byte is left as it is. *)
Definition lower_ascii (c : ascii) : ascii :=
  let n := nat_of_ascii c in
  if ((65 <=? n) && (n <=? 90))%nat then ascii_of_nat (n + 32) else c.

Fixpoint lower (s : string) : string :=
  match s with
  | EmptyString => EmptyString
  | String c s' => String (lower_ascii c) (lower s')
  end.

(** ** Tensors *)

Section Tensors.
Context {R : Type}.

(** A tensor of rank 2, 3 or 4: the sizes and the element at an index. *)
Record Tensor2 : Type := mkTensor2 {
  rows : nat;
  cols : nat;
  at2 : nat → nat → R
}.

Record Tensor3 : Type := mkTensor3 {
  size0 : nat;
  size1 : nat;
  size2 : nat;
  at3 : nat → nat → nat → R
}.

Record Tensor4 : Type := mkTensor4 {
  dim0 : nat;
  dim1 : nat;
  dim2 : nat;
  dim3 : nat;
  at4 : nat → nat → nat → nat → R
}.

Definition shape2 (t : Tensor2) : nat * nat := (rows t, cols t).
Definition shape3 (t : Tensor3) : nat * nat * nat := (size0 t, size1 t, size2 t).
Definition shape4 (t : Tensor4) : nat * nat * nat * nat :=
  (dim0 t, dim1 t, dim2 t, dim3 t).

(** The elements of a rank-2 tensor, row by row. *)
Definition to_lists2 (t : Tensor2) : list (list R) :=
  (λ i, (λ j, at2 t i j) <$> seq 0 (cols t)) <$> seq 0 (rows t).

(** [t[i]] on the first axis of a rank-3 tensor. *)
Definition getitem0 (t : Tensor3) (i : Z) : result Tensor2 :=
  j ← py_index (size0 t) i;
  Ok (mkTensor2 (size1 t) (size2 t) (λ b k, at3 t j b k)).

(** [t[:, i, :]]. *)
Definition getitem1 (t : Tensor3) (i : Z) : result Tensor2 :=
  j ← py_index (size1 t) i;
  Ok (mkTensor2 (size0 t) (size2 t) (λ b k, at3 t b j k)).

(** [torch.cat((a, b), dim=1)] on rank-2 tensors. *)
Definition cat2_dim1 (a b : Tensor2) : result Tensor2 :=
  if (rows a =? rows b)%nat then
    Ok (mkTensor2 (rows a) (cols a + cols b)
          (λ i k, if (k <? cols a)%nat then at2 a i k else at2 b i (k - cols a)))
  else Err (RuntimeError "torch.cat: sizes of tensors must match except in dimension 1").

(** [torch.cat([a, b], 1)] on rank-3 tensors. *)
Definition cat3_dim1 (a b : Tensor3) : result Tensor3 :=
  if (size0 a =? size0 b)%nat && (size2 a =? size2 b)%nat then
    Ok (mkTensor3 (size0 a) (size1 a + size1 b) (size2 a)
          (λ i j k, if (j <? size1 a)%nat then at3 a i j k else at3 b i (j - size1 a) k))
  else Err (RuntimeError "torch.cat: sizes of tensors must match except in dimension 1").

(** [torch.cat([a, b], dim=2)] on rank-3 tensors. *)
Definition cat3_dim2 (a b : Tensor3) : result Tensor3 :=
  if (size0 a =? size0 b)%nat && (size1 a =? size1 b)%nat then
    Ok (mkTensor3 (size0 a) (size1 a) (size2 a + size2 b)
          (λ i j k, if (k <? size2 a)%nat then at3 a i j k else at3 b i j (k - size2 a)))
  else Err (RuntimeError "torch.cat: sizes of tensors must match except in dimension 2").

(** [t.unsqueeze(1)]. *)
Definition unsqueeze1 (t : Tensor2) : Tensor3 :=
  mkTensor3 (rows t) 1 (cols t) (λ i _ k, at2 t i k).

(** One axis of [expand]: a size is kept, or a size of 1 is repeated. *)
Definition expandable (src tgt : nat) : bool :=
  (src =? tgt)%nat || (src =? 1)%nat.

Definition expand_index (src i : nat) : nat :=
  if (src =? 1)%nat then 0%nat else i.

(** [t.expand_as(other)]. *)
Definition expand_as (t other : Tensor3) : result Tensor3 :=
  if expandable (size0 t) (size0 other)
     && expandable (size1 t) (size1 other)
     && expandable (size2 t) (size2 other)
  then
    Ok (mkTensor3 (size0 other) (size1 other) (size2 other)
          (λ i j k, at3 t (expand_index (size0 t) i)
                          (expand_index (size1 t) j)
                          (expand_index (size2 t) k)))
  else Err (RuntimeError "expand: the expanded size must match the existing size").

(** [t.permute(1, 0, 2)]. *)
Definition permute102 (t : Tensor3) : Tensor3 :=
  mkTensor3 (size1 t) (size0 t) (size2 t) (λ j i k, at3 t i j k).

(** [t.flatten(1)]. *)
Definition flatten1 (t : Tensor3) : Tensor2 :=
  mkTensor2 (size0 t) (size1 t * size2 t)
    (λ i m, at3 t i (m / size2 t)%nat (m mod size2 t)%nat).

End Tensors.

Arguments Tensor2 R : clear implicits.
Arguments Tensor3 R : clear implicits.
Arguments Tensor4 R : clear implicits.

(** ** The layers the two files call

    A layer is the record of the arguments it was built with.  What the
    constructors of torch and of the other layers of the package check on
    their own arguments (a padding index outside the vocabulary, a dropout
    outside the unit interval, a width that is not positive, an unknown
    activation, a model dimension that the heads do not divide) and the
    warnings they issue lie outside the two files and are not modelled: the
    constructors below always return.  A statement about a constructed
    model is therefore a statement about the model the code returns
    whenever those constructors return. *)

(** *** torch layers *)

(** [nn.Embedding]: its constructor arguments, and the shape and the
    [requires_grad] flag of the weight it currently holds. *)
Record Embedding : Type := mkEmbedding {
  num_embeddings : Z;
  embedding_dim : Z;
  emb_padding_idx : Z;
  weight_shape : Z * Z;
  weight_requires_grad : bool
}.

(** [nn.Embedding(num_embeddings, embedding_dim, padding_idx=...)]. *)
Definition nn_Embedding (n d pad : Z) : Embedding :=
  mkEmbedding n d pad (n, d) true.

(** [layer.weight = nn.Parameter(torch.tensor(m), requires_grad=g)] for a
    matrix [m] of the given shape: the assignment replaces the weight, the
    constructor arguments stay as they were. *)
Definition set_weight (e : Embedding) (shape : Z * Z) (g : bool) : Embedding :=
  mkEmbedding (num_embeddings e) (embedding_dim e) (emb_padding_idx e) shape g.

(** The keyword arguments of [nn.LSTM] and [nn.GRU]. *)
Record rnn_params : Type := mk_rnn_params {
  input_size : Z;
  hidden_size : Z;
  num_layers : Z;
  rnn_bidirectional : bool;
  rnn_dropout_p : Q;
  batch_first : bool
}.

Inductive RNNModule : Type :=
  | nn_LSTM (p : rnn_params)
  | nn_GRU (p : rnn_params).

Definition rnn_params_of (m : RNNModule) : rnn_params :=
  match m with nn_LSTM p | nn_GRU p => p end.

Definition num_directions (p : rnn_params) : Z :=
  if rnn_bidirectional p then 2 else 1.

(** *** Layers of the package *)

(** [ContextAttention(input_dim, dropout, sum_along_seq)]. *)
Record ContextAttention : Type := mkContextAttention {
  attn_input_dim : Z;
  attn_dropout_p : Q;
  sum_along_seq : bool
}.

(** [MLP(d_hidden, activation, dropout, batchnorm, batchnorm_last,
    linear_first)]. *)
Record MLP : Type := mkMLP {
  d_hidden : list Z;
  mlp_activation_fn : string;
  mlp_dropout_p : option Q;
  mlp_bn : bool;
  mlp_bn_last : bool;
  mlp_lin_first : bool
}.

(** [SameSizeCatAndContEmbeddings(...)], the fifteen positional arguments
    in order. *)
Record SameSizeCatAndContEmbeddings : Type := mkSameSizeCatAndContEmbeddings {
  emb_embed_dim : Z;
  emb_column_idx : gmap string Z;
  emb_embed_input : option (list (string * Z));
  emb_embed_dropout : Q;
  emb_full_embed_dropout : bool;
  emb_shared_embed : bool;
  emb_add_shared_embed : bool;
  emb_frac_shared_embed : Q;
  emb_use_embed_bias : bool;
  emb_continuous_cols : option (list string);
  emb_embed_continuous : bool;
  emb_cont_embed_dropout : Q;
  emb_cont_embed_activation : option string;
  emb_use_cont_bias : bool;
  emb_cont_norm_layer : option string
}.

(** [SaintEncoder(input_dim, n_heads, use_bias, attn_dropout, ff_dropout,
    activation, n_feat)]. *)
Record SaintEncoderCfg : Type := mkSaintEncoderCfg {
  enc_input_dim : Z;
  enc_n_heads : Z;
  enc_use_bias : bool;
  enc_attn_dropout : Q;
  enc_ff_dropout : Q;
  enc_activation : string;
  enc_n_feat : Z
}.

(** A block together with what its two attention layers recorded on the
    last forward pass: [col_attn.attn_weights] and [row_attn.attn_weights],
    absent before the first pass. *)
Record SaintEncoder (R : Type) : Type := mkSaintEncoder {
  enc_cfg : SaintEncoderCfg;
  col_attn_weights : option (Tensor4 R);
  row_attn_weights : option (Tensor4 R)
}.
Arguments mkSaintEncoder {R} _ _ _.
Arguments enc_cfg {R} _.
Arguments col_attn_weights {R} _.
Arguments row_attn_weights {R} _.

(** *** The interface of the called layers

    Each layer is a function from its configuration and its input to an
    optional output ([None]: the layer raised), for fixed trained
    parameters and with dropout disabled.  The contracts say what shape a
    returned tensor has. *)
Class Collaborators (R : Type) : Type := {
  (** torch: [nn.Embedding] maps a [(B, T)] tensor of indices to
      [(B, T, embedding_dim)]. *)
  Embedding_forward : Embedding → Tensor2 R → option (Tensor3 R);
  Embedding_forward_shape e X y :
    Embedding_forward e X = Some y →
    size0 y = rows X ∧ size1 y = cols X ∧ Z.of_nat (size2 y) = embedding_dim e;

  (** torch: a batch-first recurrent stack maps [(B, T, input_size)] to the
      output sequence [(B, T, D * hidden_size)] and the final hidden state
      [(D * num_layers, B, hidden_size)], [D] the number of directions.
      (The cell state of an LSTM is not used by the caller.) *)
  RNN_forward : RNNModule → Tensor3 R → option (Tensor3 R * Tensor3 R);
  RNN_forward_shape m x o h :
    RNN_forward m x = Some (o, h) →
    let p := rnn_params_of m in
    (size0 o = size0 x ∧ size1 o = size1 x
     ∧ Z.of_nat (size2 o) = num_directions p * hidden_size p)
    ∧ (Z.of_nat (size0 h) = num_directions p * num_layers p
       ∧ size1 h = size0 x
       ∧ Z.of_nat (size2 h) = hidden_size p);

  (** Modelled from the spec: the context-attention pooling of section 4.2
      ([ContextAttention.forward], built with [sum_along_seq=True]): the
      weighted sum over the time axis of a [(B, T, W)] sequence is a
      [(B, W)] vector. *)
  ContextAttention_forward : ContextAttention → Tensor3 R → option (Tensor2 R);
  ContextAttention_forward_shape a x y :
    ContextAttention_forward a x = Some y →
    rows y = size0 x ∧ cols y = size2 x;

  (** Modelled from the spec: the feed-forward head of section 6
      ([MLP.forward]): a flat vector of the first width of [d_hidden] is
      transformed into a flat vector of the last width. *)
  MLP_forward : MLP → Tensor2 R → option (Tensor2 R);
  MLP_forward_shape m x y :
    MLP_forward m x = Some y →
    head (d_hidden m) = Some (Z.of_nat (cols x)) →
    rows y = rows x ∧ last (d_hidden m) = Some (Z.of_nat (cols y));

  (** Modelled from the spec: the embedding composer of section 6
      ([SameSizeCatAndContEmbeddings.forward]): two optional token
      sequences, the categorical one present exactly when categorical
      columns are configured and the continuous one exactly when continuous
      columns are, with one token per column and the model dimension as
      width. *)
  cat_and_cont_embed_forward :
    SameSizeCatAndContEmbeddings → Tensor2 R →
    option (option (Tensor3 R) * option (Tensor3 R));
  cat_and_cont_embed_present e X x_cat x_cont :
    cat_and_cont_embed_forward e X = Some (x_cat, x_cont) →
    (x_cat = None ↔ emb_embed_input e = None)
    ∧ (x_cont = None ↔ emb_continuous_cols e = None);
  cat_and_cont_embed_cat_shape e X x_cat x_cont t cats :
    cat_and_cont_embed_forward e X = Some (x_cat, x_cont) →
    x_cat = Some t → emb_embed_input e = Some cats →
    size0 t = rows X ∧ size1 t = length cats
    ∧ Z.of_nat (size2 t) = emb_embed_dim e;
  cat_and_cont_embed_cont_shape e X x_cat x_cont t conts :
    cat_and_cont_embed_forward e X = Some (x_cat, x_cont) →
    x_cont = Some t → emb_continuous_cols e = Some conts →
    size0 t = rows X ∧ size1 t = length conts
    ∧ Z.of_nat (size2 t) = emb_embed_dim e;

  (** Modelled from the spec: the column/row self-attention block of
      section 4.1 ([SaintEncoder.forward]): the token sequence keeps its
      shape [(B, F, d)], the column attention weights have shape
      [(B, heads, F, F)] and the row attention weights [(1, heads, B, B)]. *)
  SaintEncoder_forward :
    SaintEncoderCfg → Tensor3 R → option (Tensor3 R * Tensor4 R * Tensor4 R);
  SaintEncoder_forward_shape c x y cw rw :
    SaintEncoder_forward c x = Some (y, cw, rw) →
    shape3 y = shape3 x
    ∧ (dim0 cw = size0 x ∧ Z.of_nat (dim1 cw) = enc_n_heads c
       ∧ dim2 cw = size1 x ∧ dim3 cw = size1 x)
    ∧ (dim0 rw = 1%nat ∧ Z.of_nat (dim1 rw) = enc_n_heads c
       ∧ dim2 rw = size0 x ∧ dim3 rw = size0 x)
}.

(** ** attentive_rnn.py *)

Module AttentiveRNN.

(** The element types numpy arrays come in; only [float32] is accepted. *)
Inductive np_dtype : Type :=
  | float16 | float32 | float64 | int32 | int64.

Definition dtype_str (d : np_dtype) : string :=
  match d with
  | float16 => "float16"
  | float32 => "float32"
  | float64 => "float64"
  | int32 => "int32"
  | int64 => "int64"
  end.

(** [embed_matrix.dtype == "float32"]. *)
Definition dtype_is_float32 (d : np_dtype) : bool :=
  match d with float32 => true | _ => false end.

(** A pretrained embedding matrix: a two-dimensional [np.ndarray], of
    which the constructor reads the element type and the shape. *)
Record ndarray : Type := mk_ndarray {
  dtype : np_dtype;
  shape : Z * Z
}.

Inductive Warning : Type :=
  | UserWarning (msg : string).

(** The arguments of [AttentiveRNN.__init__]. *)
Record Args : Type := mkArgs {
  vocab_size : Z;
  rnn_type : string;
  hidden_dim : Z;
  n_layers : Z;
  rnn_dropout : Q;
  bidirectional : bool;
  use_hidden_state : bool;
  padding_idx : Z;
  embed_dim : option Z;
  embed_matrix : option ndarray;
  embed_trainable : bool;
  with_attention : bool;
  attn_concatenate : bool;
  attn_dropout : Q;
  head_hidden_dims : option (list Z);
  head_activation : string;
  head_dropout : option Q;
  head_batchnorm : bool;
  head_batchnorm_last : bool;
  head_linear_first : bool
}.

(** The constructed model.  [hparams] stands for the attributes that
    lines 143-163 copy from the arguments (the matrix itself is not kept
    as an attribute; nothing reads it from [hparams] after
    construction). *)
Record Self : Type := mkSelf {
  hparams : Args;
  word_embed : Embedding;
  rnn : option RNNModule;
  attn : option ContextAttention;
  attn_rnn_mlp : option MLP;
  output_dim : Z
}.

Definition mismatch_warning (embed_dim dim : Z) : Warning :=
  UserWarning
    ("the input embedding dimension " +:+ pretty embed_dim
     +:+ " and the dimension of the pretrained embeddings " +:+ pretty dim
     +:+ " do not match. The pretrained embeddings dimension ("
     +:+ pretty dim +:+ ") will be used").

Definition rnn_type_error (rnn_type : string) : exn :=
  ValueError ("'rnn_type' must be 'lstm' or 'gru', got " +:+ rnn_type +:+ " instead").

Definition dtype_error (d : np_dtype) : exn :=
  AssertionError
    ("'embed_matrix' must be of dtype 'float32', got dtype '" +:+ dtype_str d +:+ "'").

(** [rnn_type.lower() in ["lstm", "gru"]]. *)
Definition rnn_type_supported (rnn_type : string) : bool :=
  bool_decide (lower rnn_type ∈ ["lstm"; "gru"]).

(** [_set_embeddings]: the embedding layer and the embedding dimension.
    Without a matrix, the local [embed_dim] is read before any
    assignment to it. *)
Definition _set_embeddings (self : Args) (embed_matrix : option ndarray)
  : result (Embedding * Z) :=
  match embed_matrix with
  | Some m =>
      if dtype_is_float32 (dtype m) then
        let word_embed :=
          nn_Embedding (vocab_size self) (snd (shape m)) (padding_idx self) in
        let word_embed :=
          if embed_trainable self then set_weight word_embed (shape m) true
          else set_weight word_embed (shape m) false in
        let embed_dim := snd (shape m) in
        Ok (word_embed, embed_dim)
      else Err (dtype_error (dtype m))
  | None =>
      embed_dim ← read_local "embed_dim" (@None Z);
      Ok (nn_Embedding (vocab_size self) embed_dim (padding_idx self), embed_dim)
  end.

(** The warnings of lines 124-136. *)
Definition init_warnings (a : Args) : list Warning :=
  match embed_dim a, embed_matrix a with
  | Some d, Some m =>
      if negb (d =? snd (shape m)) then [mismatch_warning d (snd (shape m))] else []
  | _, _ => []
  end.

(** Lines 183-195: the attention layer, if any, and the output width
    before the head. *)
Definition init_attention (a : Args) : option ContextAttention * Z :=
  if with_attention a then
    let attn_input_dim :=
      if bidirectional a && attn_concatenate a then hidden_dim a * 4
      else if bidirectional a || attn_concatenate a then hidden_dim a * 2
      else hidden_dim a in
    (Some (mkContextAttention attn_input_dim (attn_dropout a) true), attn_input_dim)
  else
    (None, if bidirectional a then hidden_dim a * 2 else hidden_dim a).

(** [__init__]: the warnings that the statements of the constructor issue
    themselves, and the model or the exception. *)
Definition __init__ (a : Args) : list Warning * result Self :=
  (init_warnings a,
   if negb (rnn_type_supported (rnn_type a)) then Err (rnn_type_error (rnn_type a))
   else
     '(word_embed, embed_dim) ← _set_embeddings a (embed_matrix a);
     let rnn_params :=
       mk_rnn_params embed_dim (hidden_dim a) (n_layers a) (bidirectional a)
                     (rnn_dropout a) true in
     let rnn :=
       if bool_decide (lower (rnn_type a) = "lstm") then Some (nn_LSTM rnn_params)
       else if bool_decide (lower (rnn_type a) = "gru") then Some (nn_GRU rnn_params)
       else None in
     let '(attn, output_dim) := init_attention a in
     match head_hidden_dims a with
     | Some dims =>
         let head_hidden_dims := [output_dim] ++ dims in
         let attn_rnn_mlp :=
           mkMLP head_hidden_dims (head_activation a) (head_dropout a)
                 (head_batchnorm a) (head_batchnorm_last a) (head_linear_first a) in
         output_dim ← list_getitem head_hidden_dims (-1);
         Ok (mkSelf a word_embed rnn attn (Some attn_rnn_mlp) output_dim)
     | None =>
         Ok (mkSelf a word_embed rnn attn None output_dim)
     end).

Section Forward.
Context {R : Type} {collab : Collaborators R}.

(** Lines 254-263: the local [attn_inp], unassigned on the path where
    [attn_concatenate] is set and [bidirectional] is not. *)
Definition attn_inp (self : Self) (output hidden : Tensor3 R)
  : result (option (Tensor3 R)) :=
  if attn_concatenate (hparams self) then
    if bidirectional (hparams self) then
      h2 ← getitem0 hidden (-2);
      h1 ← getitem0 hidden (-1);
      bi_hidden ← cat2_dim1 h2 h1;
      e ← expand_as (unsqueeze1 bi_hidden) output;
      Some <$> cat3_dim2 output e
    else Ok None
  else
    h1 ← getitem0 hidden (-1);
    e ← expand_as (unsqueeze1 h1) output;
    Some <$> cat3_dim2 output e.

(** [_process_rnn_outputs]. *)
Definition _process_rnn_outputs (self : Self) (output hidden : Tensor3 R)
  : result (Tensor2 R) :=
  if with_attention (hparams self) then
    inp ← attn_inp self output hidden;
    layer ← read_attr "attn" (attn self);
    x ← read_local "attn_inp" inp;
    call "ContextAttention" (ContextAttention_forward layer x)
  else
    let output := permute102 output in
    if bidirectional (hparams self) then
      if use_hidden_state (hparams self) then
        h2 ← getitem0 hidden (-2);
        h1 ← getitem0 hidden (-1);
        cat2_dim1 h2 h1
      else getitem0 output (-1)
    else
      if use_hidden_state (hparams self) then getitem0 hidden (-1)
      else getitem0 output (-1).

(** Lines 212-215: the locals [o] and [h], assigned only under one of
    the two type names. *)
Definition run_rnn (self : Self) (embed : Tensor3 R)
  : result (option (Tensor3 R * Tensor3 R)) :=
  if bool_decide (lower (rnn_type (hparams self)) = "lstm") then
    layer ← read_attr "rnn" (rnn self);
    Some <$> call "LSTM" (RNN_forward layer embed)
  else if bool_decide (lower (rnn_type (hparams self)) = "gru") then
    layer ← read_attr "rnn" (rnn self);
    Some <$> call "GRU" (RNN_forward layer embed)
  else Ok None.

(** [forward]. *)
Definition forward (self : Self) (X : Tensor2 R) : result (Tensor2 R) :=
  embed ← call "Embedding" (Embedding_forward (word_embed self) X);
  oh ← run_rnn self embed;
  '(o, h) ← read_local "o" oh;
  processed_outputs ← _process_rnn_outputs self o h;
  match head_hidden_dims (hparams self) with
  | Some _ =>
      layer ← read_attr "attn_rnn_mlp" (attn_rnn_mlp self);
      call "MLP" (MLP_forward layer processed_outputs)
  | None => Ok processed_outputs
  end.

End Forward.

(** *** The constructed model in closed form *)

(** The recurrent layer the constructor builds for a supported type. *)
Definition built_rnn (a : Args) (embed_dim : Z) : RNNModule :=
  let p := mk_rnn_params embed_dim (hidden_dim a) (n_layers a) (bidirectional a)
                         (rnn_dropout a) true in
  if bool_decide (lower (rnn_type a) = "lstm") then nn_LSTM p else nn_GRU p.

(** The width the constructor stores in [output_dim]. *)
Definition built_output_dim (a : Args) : Z :=
  match head_hidden_dims a with
  | Some dims => List.last dims (snd (init_attention a))
  | None => snd (init_attention a)
  end.

(** The model a successful construction returns, attribute by attribute. *)
Definition built_self (a : Args) (m : ndarray) : Self :=
  mkSelf a
    (set_weight (nn_Embedding (vocab_size a) (snd (shape m)) (padding_idx a))
                (shape m) (embed_trainable a))
    (Some (built_rnn a (snd (shape m))))
    (fst (init_attention a))
    (match head_hidden_dims a with
     | Some dims =>
         Some (mkMLP (snd (init_attention a) :: dims) (head_activation a)
                     (head_dropout a) (head_batchnorm a) (head_batchnorm_last a)
                     (head_linear_first a))
     | None => None
     end)
    (built_output_dim a).

End AttentiveRNN.

(** ** saint.py *)

Module SAINT.

(** The arguments of [SAINT.__init__]. *)
Record Args : Type := mkArgs {
  column_idx : gmap string Z;
  cat_embed_input : option (list (string * Z));
  cat_embed_dropout : Q;
  full_embed_dropout : bool;
  shared_embed : bool;
  add_shared_embed : bool;
  frac_shared_embed : Q;
  continuous_cols : option (list string);
  embed_continuous_activation : option string;
  cont_embed_dropout : Q;
  cont_embed_activation : option string;
  cont_norm_layer : option string;
  input_dim : Z;
  use_bias : bool;
  n_heads : Z;
  n_blocks : Z;
  attn_dropout : Q;
  ff_dropout : Q;
  transformer_activation : string;
  mlp_hidden_dims : option (list Z);
  mlp_activation : string;
  mlp_dropout : Q;
  mlp_batchnorm : bool;
  mlp_batchnorm_last : bool;
  mlp_linear_first : bool
}.

Section Model.
Context {R : Type}.

(** [nn.Sequential]: the registered modules by name, in registration
    order. *)
Definition Sequential : Type := list (string * SaintEncoder R).

(** [add_module(name, module)]: a name already registered keeps its
    place and gets the new module, a new name goes to the end. *)
Fixpoint add_module (blks : Sequential) (name : string) (m : SaintEncoder R)
  : Sequential :=
  match blks with
  | [] => [(name, m)]
  | (n, m') :: rest =>
      if bool_decide (n = name) then (n, m) :: rest
      else (n, m') :: add_module rest name m
  end.

(** The constructed model.  [hparams] stands for the attributes that
    lines 150-177 copy from the arguments. *)
Record Self : Type := mkSelf {
  hparams : Args;
  with_cls_token : bool;
  n_cat : Z;
  n_cont : Z;
  n_feats : Z;
  cat_and_cont_embed : SameSizeCatAndContEmbeddings;
  transformer_blks : Sequential;
  transformer_mlp : MLP;
  output_dim : Z
}.

Definition set_transformer_blks (self : Self) (blks : Sequential) : Self :=
  mkSelf (hparams self) (with_cls_token self) (n_cat self) (n_cont self)
         (n_feats self) (cat_and_cont_embed self) blks (transformer_mlp self)
         (output_dim self).

(** Lines 202-215: one block per index of [range(n_blocks)]. *)
Definition init_blocks (a : Args) (n_feats : Z) : Sequential :=
  foldl
    (λ blks i,
       add_module blks ("saint_block" +:+ pretty i)
         (mkSaintEncoder
            (mkSaintEncoderCfg (input_dim a) (n_heads a) (use_bias a)
               (attn_dropout a) (ff_dropout a) (transformer_activation a) n_feats)
            None None))
    [] (seqZ 0 (n_blocks a)).

(** Lines 217-227: the widths handed to the dense head. *)
Definition init_mlp_hidden_dims (a : Args) (attn_output_dim : Z) : list Z :=
  match mlp_hidden_dims a with
  | None | Some [] => [attn_output_dim; attn_output_dim * 4; attn_output_dim * 2]
  | Some dims => [attn_output_dim] ++ dims
  end.

(** [__init__]. *)
Definition __init__ (a : Args) : result Self :=
  let with_cls_token := bool_decide (is_Some (column_idx a !! "cls_token")) in
  let n_cat :=
    match cat_embed_input a with Some l => Z.of_nat (length l) | None => 0 end in
  let n_cont :=
    match continuous_cols a with Some l => Z.of_nat (length l) | None => 0 end in
  let n_feats := n_cat + n_cont in
  let cat_and_cont_embed :=
    mkSameSizeCatAndContEmbeddings
      (input_dim a) (column_idx a) (cat_embed_input a) (cat_embed_dropout a)
      (full_embed_dropout a) (shared_embed a) (add_shared_embed a)
      (frac_shared_embed a) false (continuous_cols a) true
      (cont_embed_dropout a) (embed_continuous_activation a) true
      (cont_norm_layer a) in
  let transformer_blks := init_blocks a n_feats in
  let attn_output_dim :=
    if with_cls_token then input_dim a else n_feats * input_dim a in
  let mlp_hidden_dims := init_mlp_hidden_dims a attn_output_dim in
  let transformer_mlp :=
    mkMLP mlp_hidden_dims (mlp_activation a) (Some (mlp_dropout a))
          (mlp_batchnorm a) (mlp_batchnorm_last a) (mlp_linear_first a) in
  output_dim ← list_getitem mlp_hidden_dims (-1);
  Ok (mkSelf a with_cls_token n_cat n_cont n_feats cat_and_cont_embed
             transformer_blks transformer_mlp output_dim).

(** The model the constructor returns, attribute by attribute. *)
Definition built_self (a : Args) : Self :=
  let with_cls_token := bool_decide (is_Some (column_idx a !! "cls_token")) in
  let n_cat := match cat_embed_input a with Some l => Z.of_nat (length l) | None => 0 end in
  let n_cont := match continuous_cols a with Some l => Z.of_nat (length l) | None => 0 end in
  let attn_output_dim :=
    if with_cls_token then input_dim a else (n_cat + n_cont) * input_dim a in
  let dims := init_mlp_hidden_dims a attn_output_dim in
  mkSelf a with_cls_token n_cat n_cont (n_cat + n_cont)
    (mkSameSizeCatAndContEmbeddings
       (input_dim a) (column_idx a) (cat_embed_input a) (cat_embed_dropout a)
       (full_embed_dropout a) (shared_embed a) (add_shared_embed a)
       (frac_shared_embed a) false (continuous_cols a) true
       (cont_embed_dropout a) (embed_continuous_activation a) true
       (cont_norm_layer a))
    (init_blocks a (n_cat + n_cont))
    (mkMLP dims (mlp_activation a) (Some (mlp_dropout a))
           (mlp_batchnorm a) (mlp_batchnorm_last a) (mlp_linear_first a))
    (List.last dims 0).

Context {collab : Collaborators R}.

(** Lines 243-248: the local [x], unassigned when the composer returns
    neither token sequence. *)
Definition feature_tokens (self : Self) (X : Tensor2 R)
  : result (option (Tensor3 R)) :=
  '(x_cat, x_cont) ← call "SameSizeCatAndContEmbeddings"
                        (cat_and_cont_embed_forward (cat_and_cont_embed self) X);
  let x := match x_cat with Some c => Some c | None => None end in
  match x_cont with
  | Some ct =>
      match x_cat with
      | Some _ => xv ← read_local "x" x; Some <$> cat3_dim1 xv ct
      | None => Ok (Some ct)
      end
  | None => Ok x
  end.

(** One block applied to the token sequence: the result, and the block
    with the attention weights of this pass recorded. *)
Definition SaintEncoder_call (blk : SaintEncoder R) (x : Tensor3 R)
  : result (Tensor3 R * SaintEncoder R) :=
  '(y, cw, rw) ← call "SaintEncoder" (SaintEncoder_forward (enc_cfg blk) x);
  Ok (y, mkSaintEncoder (enc_cfg blk) (Some cw) (Some rw)).

(** [nn.Sequential.forward]: the blocks in order, each fed the output of
    the one before; the blocks after the pass. *)
Fixpoint Sequential_forward (blks : Sequential) (x : Tensor3 R)
  : result (Tensor3 R) * Sequential :=
  match blks with
  | [] => (Ok x, [])
  | (name, blk) :: rest =>
      match SaintEncoder_call blk x with
      | Ok (y, blk') =>
          let '(r, rest') := Sequential_forward rest y in
          (r, (name, blk') :: rest')
      | Err e => (Err e, blks)
      end
  end.

(** Lines 252-255: the reduction to one vector per sample. *)
Definition reduce (self : Self) (x : Tensor3 R) : result (Tensor2 R) :=
  if with_cls_token self then getitem1 x 0 else Ok (flatten1 x).

(** [forward]: the result, and the model after the pass. *)
Definition forward (self : Self) (X : Tensor2 R) : result (Tensor2 R) * Self :=
  match feature_tokens self X ≫= read_local "x" with
  | Err e => (Err e, self)
  | Ok x =>
      let '(r, blks) := Sequential_forward (transformer_blks self) x in
      (x ← r; x ← reduce self x; call "MLP" (MLP_forward (transformer_mlp self) x),
       set_transformer_blks self blks)
  end.

(** The [attention_weights] property. *)
Fixpoint collect_attention_weights (blks : Sequential)
  : result (list (Tensor4 R * Tensor4 R)) :=
  match blks with
  | [] => Ok []
  | (_, blk) :: rest =>
      cw ← read_attr "attn_weights" (col_attn_weights blk);
      rw ← read_attr "attn_weights" (row_attn_weights blk);
      ws ← collect_attention_weights rest;
      Ok ((cw, rw) :: ws)
  end.

Definition attention_weights (self : Self)
  : result (list (Tensor4 R * Tensor4 R)) :=
  collect_attention_weights (transformer_blks self).

End Model.

Arguments Sequential R : clear implicits.
Arguments Self R : clear implicits.
Arguments built_self R a : clear implicits.

End SAINT.

(** ** A reference implementation of the called layers

    Over integer scalars, every layer computes a tensor of the shape its
    contract promises; the contents are simple functions of the input.
    It shows that the interface can be implemented, and the model can be
    run with it on concrete inputs. *)

Module Reference.

Definition ref_Embedding_forward (e : Embedding) (X : Tensor2 Z) : option (Tensor3 Z) :=
  if 0 <=? embedding_dim e then
    Some (mkTensor3 (rows X) (cols X) (Z.to_nat (embedding_dim e))
            (λ b t k, at2 X b t + Z.of_nat k))
  else None.

Definition ref_RNN_forward (m : RNNModule) (x : Tensor3 Z)
  : option (Tensor3 Z * Tensor3 Z) :=
  let p := rnn_params_of m in
  if (0 <=? hidden_size p) && (0 <=? num_layers p) then
    let width := Z.to_nat (num_directions p * hidden_size p) in
    let layers := Z.to_nat (num_directions p * num_layers p) in
    Some (mkTensor3 (size0 x) (size1 x) width
            (λ b t k, at3 x b t 0%nat + Z.of_nat (10 * t + k)),
          mkTensor3 layers (size0 x) (Z.to_nat (hidden_size p))
            (λ l b k, Z.of_nat (100 * l + 10 * b + k)))
  else None.

(** Pooling with equal weights. *)
Definition ref_ContextAttention_forward (a : ContextAttention) (x : Tensor3 Z)
  : option (Tensor2 Z) :=
  Some (mkTensor2 (size0 x) (size2 x)
          (λ b k, foldr Z.add 0 ((λ t, at3 x b t k) <$> seq 0 (size1 x)))).

Definition ref_MLP_forward (m : MLP) (x : Tensor2 Z) : option (Tensor2 Z) :=
  match last (d_hidden m) with
  | Some d =>
      if 0 <=? d then
        Some (mkTensor2 (rows x) (Z.to_nat d) (λ b k, at2 x b 0%nat + Z.of_nat k))
      else None
  | None => None
  end.

Definition token_tensor {A : Type} (X : Tensor2 Z) (d : Z) (columns : list A)
  : Tensor3 Z :=
  mkTensor3 (rows X) (length columns) (Z.to_nat d)
    (λ b f k, at2 X b f + Z.of_nat k).

Definition ref_cat_and_cont_embed_forward
    (e : SameSizeCatAndContEmbeddings) (X : Tensor2 Z)
  : option (option (Tensor3 Z) * option (Tensor3 Z)) :=
  if 0 <=? emb_embed_dim e then
    Some (token_tensor X (emb_embed_dim e) <$> emb_embed_input e,
          token_tensor X (emb_embed_dim e) <$> emb_continuous_cols e)
  else None.

Definition ref_SaintEncoder_forward (c : SaintEncoderCfg) (x : Tensor3 Z)
  : option (Tensor3 Z * Tensor4 Z * Tensor4 Z) :=
  if 0 <=? enc_n_heads c then
    Some (x,
          mkTensor4 (size0 x) (Z.to_nat (enc_n_heads c)) (size1 x) (size1 x)
            (λ _ _ i j, if (i =? j)%nat then 1 else 0),
          mkTensor4 1 (Z.to_nat (enc_n_heads c)) (size0 x) (size0 x)
            (λ _ _ i j, if (i =? j)%nat then 1 else 0))
  else None.

#[refine] Instance collaborators : Collaborators Z := {|
  Embedding_forward := ref_Embedding_forward;
  RNN_forward := ref_RNN_forward;
  ContextAttention_forward := ref_ContextAttention_forward;
  MLP_forward := ref_MLP_forward;
  cat_and_cont_embed_forward := ref_cat_and_cont_embed_forward;
  SaintEncoder_forward := ref_SaintEncoder_forward
|}.
Proof.
  - intros e X y. unfold ref_Embedding_forward.
    destruct (0 <=? embedding_dim e) eqn:E; [|discriminate].
    intros [= <-]. simpl. apply Z.leb_le in E. lia.
  - intros m x o h. unfold ref_RNN_forward.
    destruct (_ && _) eqn:E; [|discriminate].
    apply andb_true_iff in E as [E1 E2]. apply Z.leb_le in E1, E2.
    intros [= <- <-]. simpl. unfold num_directions.
    destruct (rnn_bidirectional _); lia.
  - intros a x y [= <-]. done.
  - intros m x y. unfold ref_MLP_forward.
    destruct (last (d_hidden m)) as [d|]; [|discriminate].
    destruct (0 <=? d) eqn:E; [|discriminate].
    apply Z.leb_le in E. intros [= <-] _. simpl. split; [done|f_equal; lia].
  - intros e X x_cat x_cont. unfold ref_cat_and_cont_embed_forward.
    destruct (0 <=? _); [|discriminate]. intros [= <- <-].
    destruct (emb_embed_input e), (emb_continuous_cols e); simpl; split; split; done.
  - intros e X x_cat x_cont t cats. unfold ref_cat_and_cont_embed_forward.
    destruct (0 <=? _) eqn:E; [|discriminate]. apply Z.leb_le in E.
    intros [= <- <-] Ht Hc. rewrite Hc in Ht. injection Ht as <-. simpl. lia.
  - intros e X x_cat x_cont t conts. unfold ref_cat_and_cont_embed_forward.
    destruct (0 <=? _) eqn:E; [|discriminate]. apply Z.leb_le in E.
    intros [= <- <-] Ht Hc. rewrite Hc in Ht. injection Ht as <-. simpl. lia.
  - intros c x y cw rw. unfold ref_SaintEncoder_forward.
    destruct (0 <=? _) eqn:E; [|discriminate]. apply Z.leb_le in E.
    intros [= <- <- <-]. simpl. repeat split; lia.
Defined.

End Reference.

(** ** The selection policy in the words of the specification

    Section 4.3 describes what [_process_rnn_outputs] selects; these are
    the tensors it names, written directly by index.  A hidden state has
    shape [(D * n_layers, B, H)] and the output sequence [(B, T, W)]. *)

Section SelectionPolicy.
Context {R : Type}.

(** The final hidden state: the last slice of [hidden]. *)
Definition final_hidden_state (hidden : Tensor3 R) : Tensor2 R :=
  mkTensor2 (size1 hidden) (size2 hidden)
    (λ b k, at3 hidden (size0 hidden - 1) b k).

(** The two direction-final hidden states, the last two slices of
    [hidden], side by side. *)
Definition final_hidden_state_bidirectional (hidden : Tensor3 R) : Tensor2 R :=
  mkTensor2 (size1 hidden) (size2 hidden + size2 hidden)
    (λ b k, if (k <? size2 hidden)%nat then at3 hidden (size0 hidden - 2) b k
            else at3 hidden (size0 hidden - 1) b (k - size2 hidden)).

(** The last timestep of the output sequence. *)
Definition last_timestep (output : Tensor3 R) : Tensor2 R :=
  mkTensor2 (size0 output) (size2 output)
    (λ b k, at3 output b (size1 output - 1) k).

(** The output sequence with a copy of the vector [v] joined to every
    timestep. *)
Definition output_with_broadcast (output : Tensor3 R) (v : Tensor2 R) : Tensor3 R :=
  mkTensor3 (size0 output) (size1 output) (size2 output + cols v)
    (λ b t k, if (k <? size2 output)%nat then at3 output b t k
              else at2 v b (k - size2 output)).

(** Two rank-3 tensors with the same shape and the same elements. *)
Definition tensor3_eq (a b : Tensor3 R) : Prop :=
  shape3 a = shape3 b
  ∧ ∀ i j k, (i < size0 a)%nat → (j < size1 a)%nat → (k < size2 a)%nat →
             at3 a i j k = at3 b i j k.

End SelectionPolicy.

(** ** Shapes in the words of the specification *)

(** The number of columns the composer was configured with. *)
Definition configured_tokens (e : SameSizeCatAndContEmbeddings) : nat :=
  (match emb_embed_input e with Some l => length l | None => 0 end
   + match emb_continuous_cols e with Some l => length l | None => 0 end)%nat.

Section Shapes.
Context {R : Type}.

(** A rank-4 tensor of shape [(d0, d1, d2, d3)], the sizes given as Python
    integers. *)
Definition has_shape4 (w : Tensor4 R) (d0 d1 d2 d3 : Z) : Prop :=
  Z.of_nat (dim0 w) = d0 ∧ Z.of_nat (dim1 w) = d1
  ∧ Z.of_nat (dim2 w) = d2 ∧ Z.of_nat (dim3 w) = d3.

(** A rank-3 tensor of shape [(d0, d1, d2)]. *)
Definition has_shape3 (t : Tensor3 R) (d0 d1 d2 : Z) : Prop :=
  Z.of_nat (size0 t) = d0 ∧ Z.of_nat (size1 t) = d1 ∧ Z.of_nat (size2 t) = d2.

(** A rank-2 tensor of shape [(d0, d1)]. *)
Definition has_shape2 (t : Tensor2 R) (d0 d1 : Z) : Prop :=
  Z.of_nat (rows t) = d0 ∧ Z.of_nat (cols t) = d1.

(** The column and row attention weights of one block, for a batch of [B]
    samples, [H] heads and [F] feature tokens. *)
Definition attention_weight_shapes (B H F : Z) (w : Tensor4 R * Tensor4 R) : Prop :=
  has_shape4 (fst w) B H F F ∧ has_shape4 (snd w) 1 H B B.

(** What a block holds after a pass over a token sequence [x]: the
    configuration [c] it was built with, and weights of the two shapes. *)
Definition block_after_pass (c : SaintEncoderCfg) (x : Tensor3 R)
    (blk : SaintEncoder R) : Prop :=
  enc_cfg blk = c
  ∧ ∃ cw rw, col_attn_weights blk = Some cw ∧ row_attn_weights blk = Some rw
             ∧ attention_weight_shapes (Z.of_nat (size0 x)) (enc_n_heads c)
                 (Z.of_nat (size1 x)) (cw, rw).

End Shapes.

(** ** Example configurations and inputs *)

Module Examples.

(** A pretrained [float32] matrix for a vocabulary of four words and
    embeddings of width four. *)
Definition matrix_4x4 : AttentiveRNN.ndarray :=
  AttentiveRNN.mk_ndarray AttentiveRNN.float32 (4, 4).

(** [AttentiveRNN(vocab_size=4, rnn_type=..., hidden_dim=4, n_layers=1,
    padding_idx=0, bidirectional=..., use_hidden_state=...,
    embed_dim=..., embed_matrix=..., with_attention=...,
    attn_concatenate=..., head_hidden_dims=...)], everything else at its
    default. *)
Definition rnn_args (rnn_type : string) (bidirectional use_hidden_state : bool)
    (embed_dim : option Z) (embed_matrix : option AttentiveRNN.ndarray)
    (with_attention attn_concatenate : bool) (head_hidden_dims : option (list Z))
  : AttentiveRNN.Args :=
  AttentiveRNN.mkArgs 4 rnn_type 4 1 (1 # 10) bidirectional use_hidden_state 0
    embed_dim embed_matrix true with_attention attn_concatenate (1 # 10)
    head_hidden_dims "relu" None false false false.

(** A model put together directly from its attributes, for statements
    about [_process_rnn_outputs] alone. *)
Definition rnn_self (bidirectional use_hidden_state with_attention
                     attn_concatenate : bool) : AttentiveRNN.Self :=
  let a := rnn_args "lstm" bidirectional use_hidden_state None (Some matrix_4x4)
                    with_attention attn_concatenate None in
  AttentiveRNN.mkSelf a
    (set_weight (nn_Embedding 4 4 0) (4, 4) true)
    (Some (nn_LSTM (mk_rnn_params 4 4 1 bidirectional (1 # 10) true)))
    (fst (AttentiveRNN.init_attention a)) None
    (snd (AttentiveRNN.init_attention a)).

(** A batch of five padded sequences of five token indices. *)
Definition X_text : Tensor2 Z :=
  mkTensor2 5 5 (λ b t, if (t =? 0)%nat then 0 else Z.of_nat ((b + t) mod 3 + 1)).

(** An output sequence [(2, 3, W)] and a hidden state [(L, 2, H)]. *)
Definition output_seq (W : nat) : Tensor3 Z :=
  mkTensor3 2 3 W (λ b t k, Z.of_nat (100 * b + 10 * t + k)).

Definition hidden_state (L H : nat) : Tensor3 Z :=
  mkTensor3 L 2 H (λ l b k, - Z.of_nat (100 * l + 10 * b + k + 1)).

(** [SAINT(column_idx, cat_embed_input, continuous_cols, input_dim,
    n_heads, n_blocks, mlp_hidden_dims)], everything else at its
    default. *)
Definition saint_args (column_idx : gmap string Z)
    (cat_embed_input : option (list (string * Z)))
    (continuous_cols : option (list string))
    (input_dim n_heads n_blocks : Z) (mlp_hidden_dims : option (list Z))
  : SAINT.Args :=
  SAINT.mkArgs column_idx cat_embed_input (1 # 10) false false false (1 # 4)
    continuous_cols None 0 None None input_dim false n_heads n_blocks
    (1 # 10) (1 # 5) "gelu" mlp_hidden_dims "relu" (1 # 10) false false true.

(** The scenario of the specification: four categorical columns of four
    categories each and one continuous column, model dimension 32, two
    blocks, eight heads, no summary token. *)
Definition scenario_args : SAINT.Args :=
  saint_args (list_to_map [("a", 0); ("b", 1); ("c", 2); ("d", 3); ("e", 4)])
    (Some [("a", 4); ("b", 4); ("c", 4); ("d", 4)]) (Some ["e"]) 32 8 2 None.

(** The same columns behind a summary token. *)
Definition cls_args : SAINT.Args :=
  saint_args
    (list_to_map [("cls_token", 0); ("a", 1); ("b", 2); ("c", 3); ("d", 4); ("e", 5)])
    (Some [("cls_token", 1); ("a", 4); ("b", 4); ("c", 4); ("d", 4)])
    (Some ["e"]) 32 8 2 (Some [64; 16]).

(** A model without any column. *)
Definition no_columns_args : SAINT.Args :=
  saint_args ∅ None None 32 8 2 None.

(** A batch of five samples with five columns. *)
Definition X_tab : Tensor2 Z :=
  mkTensor2 5 5 (λ b c, Z.of_nat ((b + c) mod 4)).

(** A token sequence of two samples, three tokens, width two. *)
Definition tokens_2x3x2 : Tensor3 Z :=
  mkTensor3 2 3 2 (λ b f k, Z.of_nat (100 * b + 10 * f + k)).

(** The model of the scenario after a forward pass over [X_tab]. *)
Definition scenario_pass : result (Tensor2 Z) * SAINT.Self Z :=
  SAINT.forward (collab := Reference.collaborators)
    (SAINT.built_self Z scenario_args) X_tab.

Definition scenario_output : Tensor2 Z :=
  match fst scenario_pass with
  | Ok y => y
  | Err _ => mkTensor2 0 0 (λ _ _, 0)
  end.

(** The token sequence of the scenario, as [forward] hands it to the
    blocks. *)
Definition scenario_tokens : Tensor3 Z :=
  match SAINT.feature_tokens (collab := Reference.collaborators)
          (SAINT.built_self Z scenario_args) X_tab with
  | Ok (Some x) => x
  | _ => mkTensor3 0 0 0 (λ _ _ _, 0)
  end.

Definition scenario_blocks_pass : result (Tensor3 Z) * SAINT.Sequential Z :=
  SAINT.Sequential_forward (collab := Reference.collaborators)
    (SAINT.transformer_blks (SAINT.built_self Z scenario_args)) scenario_tokens.

Definition scenario_tokens_after_blocks : Tensor3 Z :=
  match fst scenario_blocks_pass with
  | Ok y => y
  | Err _ => mkTensor3 0 0 0 (λ _ _ _, 0)
  end.

(** A summary token in the schema, but an empty list of categorical
    columns and no continuous column. *)
Definition cls_without_columns_args : SAINT.Args :=
  saint_args (list_to_map [("cls_token", 0)]) (Some []) None 32 8 2 None.

(** The scenario without any block. *)
Definition no_blocks_args : SAINT.Args :=
  saint_args (list_to_map [("a", 0); ("b", 1); ("c", 2); ("d", 3); ("e", 4)])
    (Some [("a", 4); ("b", 4); ("c", 4); ("d", 4)]) (Some ["e"]) 32 8 0 None.

(** A bidirectional GRU without attention, with a head of one layer, and
    what its embedding and recurrent layers return on [X_text]. *)
Definition text_args : AttentiveRNN.Args :=
  rnn_args "gru" true false None (Some matrix_4x4) false true (Some [3]).

Definition text_self : AttentiveRNN.Self :=
  AttentiveRNN.built_self text_args matrix_4x4.

Definition text_embed : Tensor3 Z :=
  default (mkTensor3 0 0 0 (λ _ _ _, 0))
    (Reference.ref_Embedding_forward (AttentiveRNN.word_embed text_self) X_text).

Definition text_rnn_out : Tensor3 Z * Tensor3 Z :=
  default (mkTensor3 0 0 0 (λ _ _ _, 0), mkTensor3 0 0 0 (λ _ _ _, 0))
    (Reference.ref_RNN_forward (AttentiveRNN.built_rnn text_args 4) text_embed).



(** The token sequence of a model without feature columns, and its pass
    through the blocks. *)
Definition empty_tokens : Tensor3 Z :=
  Reference.token_tensor X_tab 32 (@nil (string * Z)).

Definition empty_tokens_pass : result (Tensor3 Z) * SAINT.Sequential Z :=
  SAINT.Sequential_forward (collab := Reference.collaborators)
    (SAINT.transformer_blks (SAINT.built_self Z cls_without_columns_args))
    empty_tokens.

(** A batch of five samples for the model with a summary token (six
    columns), its token sequence and its pass through the blocks. *)
Definition X_tab_cls : Tensor2 Z :=
  mkTensor2 5 6 (λ b c, if (c =? 0)%nat then 0 else Z.of_nat ((b + c) mod 4)).

Definition cls_tokens : Tensor3 Z :=
  match SAINT.feature_tokens (collab := Reference.collaborators)
          (SAINT.built_self Z cls_args) X_tab_cls with
  | Ok (Some x) => x
  | _ => mkTensor3 0 0 0 (λ _ _ _, 0)
  end.

Definition cls_blocks_pass : result (Tensor3 Z) * SAINT.Sequential Z :=
  SAINT.Sequential_forward (collab := Reference.collaborators)
    (SAINT.transformer_blks (SAINT.built_self Z cls_args)) cls_tokens.

Definition cls_tokens_after_blocks : Tensor3 Z :=
  match fst cls_blocks_pass with
  | Ok y => y
  | Err _ => mkTensor3 0 0 0 (λ _ _ _, 0)
  end.

End Examples.

(** ** Classes of exceptions *)

(** The exceptions of the tensor operations written in the two files
    (indexing, [torch.cat], [expand_as]): an index out of range, or a
    [RuntimeError] on shapes that do not fit. *)
Definition torch_error (e : exn) : Prop :=
  match e with
  | RuntimeError _ | IndexError _ => True
  | _ => False
  end.

(** The failure of one of the named layers. *)
Definition layer_error (layers : list string) (e : exn) : Prop :=
  match e with
  | LayerError layer => layer ∈ layers
  | _ => False
  end.

(** Every exception of a computation satisfies [P]. *)
Definition raises_only {A : Type} (P : exn → Prop) (m : result A) : Prop :=
  ∀ e, m = Err e → P e.

(** ** Variations of a configuration *)

(** The same arguments with another spelling of the recurrent type. *)
Definition with_rnn_type (a : AttentiveRNN.Args) (s : string) : AttentiveRNN.Args :=
  AttentiveRNN.mkArgs
    (AttentiveRNN.vocab_size a) s (AttentiveRNN.hidden_dim a)
    (AttentiveRNN.n_layers a) (AttentiveRNN.rnn_dropout a)
    (AttentiveRNN.bidirectional a) (AttentiveRNN.use_hidden_state a)
    (AttentiveRNN.padding_idx a) (AttentiveRNN.embed_dim a)
    (AttentiveRNN.embed_matrix a) (AttentiveRNN.embed_trainable a)
    (AttentiveRNN.with_attention a) (AttentiveRNN.attn_concatenate a)
    (AttentiveRNN.attn_dropout a) (AttentiveRNN.head_hidden_dims a)
    (AttentiveRNN.head_activation a) (AttentiveRNN.head_dropout a)
    (AttentiveRNN.head_batchnorm a) (AttentiveRNN.head_batchnorm_last a)
    (AttentiveRNN.head_linear_first a).

(** The same arguments with another requested embedding dimension. *)
Definition with_embed_dim (a : AttentiveRNN.Args) (d : option Z) : AttentiveRNN.Args :=
  AttentiveRNN.mkArgs
    (AttentiveRNN.vocab_size a) (AttentiveRNN.rnn_type a) (AttentiveRNN.hidden_dim a)
    (AttentiveRNN.n_layers a) (AttentiveRNN.rnn_dropout a)
    (AttentiveRNN.bidirectional a) (AttentiveRNN.use_hidden_state a)
    (AttentiveRNN.padding_idx a) d
    (AttentiveRNN.embed_matrix a) (AttentiveRNN.embed_trainable a)
    (AttentiveRNN.with_attention a) (AttentiveRNN.attn_concatenate a)
    (AttentiveRNN.attn_dropout a) (AttentiveRNN.head_hidden_dims a)
    (AttentiveRNN.head_activation a) (AttentiveRNN.head_dropout a)
    (AttentiveRNN.head_batchnorm a) (AttentiveRNN.head_batchnorm_last a)
    (AttentiveRNN.head_linear_first a).

(** The width of the selected recurrent output, by the flags (lines
    184-195 of attentive_rnn.py). *)
Definition selected_width (a : AttentiveRNN.Args) : Z :=
  let h := AttentiveRNN.hidden_dim a in
  if AttentiveRNN.with_attention a then
    if AttentiveRNN.bidirectional a && AttentiveRNN.attn_concatenate a then h * 4
    else if AttentiveRNN.bidirectional a || AttentiveRNN.attn_concatenate a then h * 2
    else h
  else if AttentiveRNN.bidirectional a then h * 2 else h.

(** What the output selection returns without attention, in the words of
    section 4.3. *)
Definition selected_output {R : Type} (a : AttentiveRNN.Args)
    (output hidden : Tensor3 R) : Tensor2 R :=
  if AttentiveRNN.use_hidden_state a then
    if AttentiveRNN.bidirectional a then final_hidden_state_bidirectional hidden
    else final_hidden_state hidden
  else last_timestep output.

(** The width of the input of the dense head of SAINT (lines 217-219 of
    saint.py). *)
Definition saint_attn_output_dim (a : SAINT.Args) : Z :=
  let n_cat := match SAINT.cat_embed_input a with
               | Some l => Z.of_nat (length l) | None => 0 end in
  let n_cont := match SAINT.continuous_cols a with
                | Some l => Z.of_nat (length l) | None => 0 end in
  if bool_decide (is_Some (SAINT.column_idx a !! "cls_token")) then SAINT.input_dim a
  else (n_cat + n_cont) * SAINT.input_dim a.


(** * Properties *)

(** ** Results and indices *)

Ltac unfold_result :=
  unfold mbind, result_mbind, result_bind, fmap, result_fmap, mret, result_ret,
         read_local, read_attr, call in *.

Lemma bind_Ok_inv {A B : Type} (m : result A) (f : A → result B) (b : B) :
  m ≫= f = Ok b → ∃ a, m = Ok a ∧ f a = Ok b.
Proof. destruct m as [a|e]; [by exists a|discriminate]. Qed.

Lemma call_Ok_inv {A : Type} (layer : string) (r : option A) (a : A) :
  call layer r = Ok a → r = Some a.
Proof. destruct r; [by intros [= ->]|discriminate]. Qed.

Lemma py_index_from_end (n k : nat) :
  (1 ≤ k ≤ n)%nat → py_index n (- Z.of_nat k) = Ok (n - k)%nat.
Proof.
  intros Hk. unfold py_index.
  destruct (- Z.of_nat k <? 0) eqn:E; [|apply Z.ltb_ge in E; lia].
  destruct (0 <=? - Z.of_nat k + Z.of_nat n) eqn:E1; [|apply Z.leb_gt in E1; lia].
  destruct (- Z.of_nat k + Z.of_nat n <? Z.of_nat n) eqn:E2; [|apply Z.ltb_ge in E2; lia].
  simpl. f_equal. lia.
Qed.

Lemma py_index_first (n : nat) : (1 ≤ n)%nat → py_index n 0 = Ok 0%nat.
Proof.
  intros Hn. unfold py_index. simpl.
  destruct (0 <? Z.of_nat n) eqn:E; [done|apply Z.ltb_ge in E; lia].
Qed.

Lemma list_getitem_last {A : Type} (l : list A) (x : A) :
  list_getitem (l ++ [x]) (-1) = Ok x.
Proof.
  unfold list_getitem. change (-1) with (- Z.of_nat 1).
  rewrite (py_index_from_end (length (l ++ [x])) 1) by (rewrite length_app; simpl; lia).
  unfold_result. rewrite length_app. simpl.
  replace (length l + 1 - 1)%nat with (length l) by lia.
  by rewrite list_lookup_middle.
Qed.

Lemma List_last_cons {A : Type} (x d : A) (l : list A) :
  List.last (x :: l) d = List.last l x.
Proof.
  revert x d. induction l as [|y l IH]; intros x d; [done|].
  change (List.last (x :: y :: l) d) with (List.last (y :: l) d).
  by rewrite (IH y d), (IH y x).
Qed.

Lemma list_getitem_last_cons {A : Type} (x : A) (l : list A) :
  list_getitem (x :: l) (-1) = Ok (List.last l x).
Proof.
  revert x. induction l as [|y l IH] using rev_ind; intros x.
  - apply (list_getitem_last []).
  - rewrite app_comm_cons, list_getitem_last. by rewrite List.last_last.
Qed.

(** ** AttentiveRNN: the selection of the recurrent outputs *)

Section ProcessRnnOutputs.
Context {R : Type} {collab : Collaborators R}.
Import AttentiveRNN.

Lemma getitem0_last (t : Tensor3 R) :
  (1 ≤ size0 t)%nat → getitem0 t (-1) = Ok (final_hidden_state t).
Proof.
  intros Ht. unfold getitem0. change (-1) with (- Z.of_nat 1).
  by rewrite py_index_from_end by lia.
Qed.

Lemma getitem0_last_permuted (t : Tensor3 R) :
  (1 ≤ size1 t)%nat → getitem0 (permute102 t) (-1) = Ok (last_timestep t).
Proof.
  intros Ht. unfold getitem0. change (-1) with (- Z.of_nat 1).
  by rewrite py_index_from_end by (simpl; lia).
Qed.

Lemma cat_last_two (t : Tensor3 R) :
  (2 ≤ size0 t)%nat →
  (h2 ← getitem0 t (-2); h1 ← getitem0 t (-1); cat2_dim1 h2 h1)
  = Ok (final_hidden_state_bidirectional t).
Proof.
  intros Ht. unfold getitem0.
  change (-2) with (- Z.of_nat 2). change (-1) with (- Z.of_nat 1).
  rewrite !py_index_from_end by lia. unfold_result. unfold cat2_dim1. simpl.
  by rewrite Nat.eqb_refl.
Qed.

(** C6.  Without attention, the output selection returns the final hidden
    state when [use_hidden_state] is set (the two direction-final states
    side by side when the stack is bidirectional, the single final state
    otherwise) and the last timestep of the output sequence when it is not,
    for a sequence of at least one timestep and a hidden state with a
    slice per direction. *)
Theorem process_rnn_outputs_without_attention
    (self : Self) (output hidden : Tensor3 R) :
  with_attention (hparams self) = false →
  (1 ≤ size1 output)%nat →
  ((if bidirectional (hparams self) then 2 else 1) ≤ size0 hidden)%nat →
  _process_rnn_outputs self output hidden
  = Ok (if use_hidden_state (hparams self) then
          if bidirectional (hparams self) then final_hidden_state_bidirectional hidden
          else final_hidden_state hidden
        else last_timestep output).
Proof.
  intros Hatt HT HL. unfold _process_rnn_outputs. rewrite Hatt.
  destruct (bidirectional (hparams self)), (use_hidden_state (hparams self)).
  - by apply cat_last_two.
  - by apply getitem0_last_permuted.
  - by apply getitem0_last.
  - by apply getitem0_last_permuted.
Qed.

(** With attention and [attn_concatenate] set on a stack that is not
    bidirectional, no branch assigns [attn_inp]: the call of the attention
    layer reads an unbound local. *)
Lemma process_rnn_outputs_attn_inp_unbound
    (self : Self) (layer : ContextAttention) (output hidden : Tensor3 R) :
  with_attention (hparams self) = true →
  attn_concatenate (hparams self) = true →
  bidirectional (hparams self) = false →
  attn self = Some layer →
  _process_rnn_outputs self output hidden = Err (UnboundLocalError "attn_inp").
Proof.
  intros Hatt Hcat Hbi Hlayer. unfold _process_rnn_outputs, attn_inp.
  by rewrite Hatt, Hcat, Hbi, Hlayer.
Qed.

Lemma expandable_refl (n : nat) : expandable n n = true.
Proof. unfold expandable. by rewrite Nat.eqb_refl. Qed.

Lemma expandable_one (n : nat) : expandable 1 n = true.
Proof. unfold expandable. by rewrite orb_true_r. Qed.

Lemma expand_index_lt (n i : nat) : (i < n)%nat → expand_index n i = i.
Proof.
  intros Hi. unfold expand_index.
  destruct (n =? 1)%nat eqn:E; [apply Nat.eqb_eq in E; lia|done].
Qed.

(** A vector per sample, repeated along the time axis of [other]. *)
Lemma expand_as_unsqueeze1 (v : Tensor2 R) (other : Tensor3 R) :
  rows v = size0 other → cols v = size2 other →
  expand_as (unsqueeze1 v) other
  = Ok (mkTensor3 (size0 other) (size1 other) (size2 other)
          (λ i _ k, at2 v (expand_index (rows v) i) (expand_index (cols v) k))).
Proof.
  intros HB HW. unfold expand_as, unsqueeze1. cbn [size0 size1 size2 at3].
  by rewrite HB, HW, !expandable_refl, expandable_one.
Qed.

Lemma cat3_dim2_same_shape (a b : Tensor3 R) :
  size0 a = size0 b → size1 a = size1 b →
  cat3_dim2 a b
  = Ok (mkTensor3 (size0 a) (size1 a) (size2 a + size2 b)
          (λ i j k, if (k <? size2 a)%nat then at3 a i j k
                    else at3 b i j (k - size2 a))).
Proof. intros H0 H1. unfold cat3_dim2. by rewrite H0, H1, !Nat.eqb_refl. Qed.

(** The output sequence joined with a broadcast copy of a vector per
    sample of the same width as the sequence. *)
Lemma cat_output_broadcast (output : Tensor3 R) (v : Tensor2 R) :
  rows v = size0 output → cols v = size2 output →
  ∃ t, (e ← expand_as (unsqueeze1 v) output; Some <$> cat3_dim2 output e)
       = Ok (Some t)
       ∧ tensor3_eq t (output_with_broadcast output v).
Proof.
  intros HB HW. rewrite expand_as_unsqueeze1 by done. unfold_result.
  rewrite cat3_dim2_same_shape by done. cbn [size0 size1 size2 at3].
  eexists. split; [reflexivity|]. split.
  - unfold shape3, output_with_broadcast. cbn [size0 size1 size2]. by rewrite HW.
  - unfold output_with_broadcast. cbn [size0 size1 size2 at3].
    intros i j k Hi Hj Hk.
    destruct (k <? size2 output)%nat eqn:Ek; [done|]. apply Nat.ltb_ge in Ek.
    by rewrite !expand_index_lt by lia.
Qed.

(** With attention and [attn_concatenate] not set, the attention layer is
    fed the output sequence joined with a broadcast copy of the last slice
    of the hidden state, not the output sequence alone. *)
Lemma attn_inp_without_concatenate
    (self : Self) (output hidden : Tensor3 R) :
  attn_concatenate (hparams self) = false →
  (1 ≤ size0 hidden)%nat →
  size1 hidden = size0 output →
  size2 hidden = size2 output →
  ∃ t, attn_inp self output hidden = Ok (Some t)
       ∧ tensor3_eq t (output_with_broadcast output (final_hidden_state hidden)).
Proof.
  intros Hcat HL HB HW. unfold attn_inp. rewrite Hcat.
  rewrite getitem0_last by done.
  by apply (cat_output_broadcast output (final_hidden_state hidden)).
Qed.

(** With attention, [attn_concatenate] set and a bidirectional stack, the
    attention layer is fed the output sequence joined with a broadcast copy
    of the two direction-final hidden states. *)
Lemma attn_inp_bidirectional_concatenate
    (self : Self) (output hidden : Tensor3 R) :
  attn_concatenate (hparams self) = true →
  bidirectional (hparams self) = true →
  (2 ≤ size0 hidden)%nat →
  size1 hidden = size0 output →
  (size2 hidden + size2 hidden)%nat = size2 output →
  ∃ t, attn_inp self output hidden = Ok (Some t)
       ∧ tensor3_eq t (output_with_broadcast output
                         (final_hidden_state_bidirectional hidden)).
Proof.
  intros Hcat Hbi HL HB HW. unfold attn_inp. rewrite Hcat, Hbi.
  pose proof (cat_last_two hidden HL) as Hc.
  pose proof (cat_output_broadcast output
                (final_hidden_state_bidirectional hidden) HB HW) as (t & Ht & Heq).
  exists t. split; [|done].
  unfold_result.
  destruct (getitem0 hidden (-2)) as [h2|]; [|discriminate].
  destruct (getitem0 hidden (-1)) as [h1|]; [|discriminate].
  by rewrite Hc.
Qed.

End ProcessRnnOutputs.

(** ** AttentiveRNN: construction *)

Section Construction.
Import AttentiveRNN.

Lemma rnn_type_supported_cases (s : string) :
  rnn_type_supported s = true ↔ lower s = "lstm" ∨ lower s = "gru".
Proof.
  unfold rnn_type_supported. rewrite bool_decide_eq_true.
  rewrite !elem_of_cons, elem_of_nil. tauto.
Qed.

Lemma rnn_type_unsupported (s : string) :
  lower s ≠ "lstm" → lower s ≠ "gru" → rnn_type_supported s = false.
Proof.
  intros H1 H2. destruct (rnn_type_supported s) eqn:E; [|done].
  apply rnn_type_supported_cases in E. tauto.
Qed.

Example rnn_type_supported_examples :
  rnn_type_supported "lstm" = true ∧ rnn_type_supported "GRU" = true
  ∧ rnn_type_supported "Lstm" = true ∧ rnn_type_supported "rnn" = false
  ∧ rnn_type_supported "" = false ∧ rnn_type_supported "lstm " = false.
Proof. repeat split; reflexivity. Qed.

(** An unsupported recurrent type is the first thing that makes the
    constructor raise. *)
Lemma init_unsupported (a : Args) :
  rnn_type_supported (rnn_type a) = false →
  snd (__init__ a) = Err (rnn_type_error (rnn_type a)).
Proof. intros H. unfold __init__. simpl. by rewrite H. Qed.

(** With a supported type, a matrix of another element type fails the
    assertion of [_set_embeddings]. *)
Lemma init_wrong_dtype (a : Args) (m : ndarray) :
  rnn_type_supported (rnn_type a) = true →
  embed_matrix a = Some m → dtype_is_float32 (dtype m) = false →
  snd (__init__ a) = Err (dtype_error (dtype m)).
Proof.
  intros Hs Hm Hd. unfold __init__, _set_embeddings. simpl.
  by rewrite Hs, Hm, Hd.
Qed.

(** Without a matrix, [_set_embeddings] reads its local [embed_dim] before
    any assignment. *)
Lemma init_without_matrix (a : Args) :
  rnn_type_supported (rnn_type a) = true →
  embed_matrix a = None →
  snd (__init__ a) = Err (UnboundLocalError "embed_dim").
Proof.
  intros Hs Hm. unfold __init__, _set_embeddings. simpl. by rewrite Hs, Hm.
Qed.

(** With a supported type and a [float32] matrix no statement of the
    constructor raises: it returns the model (whenever the constructors of
    the layers, which are not modelled, return). *)
Lemma init_success (a : Args) (m : ndarray) :
  rnn_type_supported (rnn_type a) = true →
  embed_matrix a = Some m → dtype_is_float32 (dtype m) = true →
  snd (__init__ a) = Ok (built_self a m).
Proof.
  intros Hs Hm Hd. unfold __init__, _set_embeddings. simpl.
  rewrite Hs, Hm, Hd. simpl. unfold_result.
  apply rnn_type_supported_cases in Hs.
  unfold built_self, built_output_dim, built_rnn.
  destruct (init_attention a) as [att od] eqn:Ea. simpl.
  assert ((if bool_decide (lower (rnn_type a) = "lstm")
           then Some (nn_LSTM (mk_rnn_params (snd (shape m)) (hidden_dim a)
                        (n_layers a) (bidirectional a) (rnn_dropout a) true))
           else if bool_decide (lower (rnn_type a) = "gru")
           then Some (nn_GRU (mk_rnn_params (snd (shape m)) (hidden_dim a)
                        (n_layers a) (bidirectional a) (rnn_dropout a) true))
           else None)
          = Some (if bool_decide (lower (rnn_type a) = "lstm")
                  then nn_LSTM (mk_rnn_params (snd (shape m)) (hidden_dim a)
                        (n_layers a) (bidirectional a) (rnn_dropout a) true)
                  else nn_GRU (mk_rnn_params (snd (shape m)) (hidden_dim a)
                        (n_layers a) (bidirectional a) (rnn_dropout a) true))) as ->.
  { destruct Hs as [Hs|Hs]; rewrite Hs; by repeat case_bool_decide. }
  assert (∀ A (f : bool → A), (if embed_trainable a then f true else f false)
                              = f (embed_trainable a)) as Hb
    by (intros; by destruct (embed_trainable a)).
  rewrite (Hb _ (set_weight _ (shape m))).
  destruct (head_hidden_dims a) as [dims|]; [|done].
  by rewrite list_getitem_last_cons.
Qed.

(** Every constructed model comes from a supported type and a [float32]
    matrix. *)
Lemma init_Ok_inv (a : Args) (self : Self) :
  snd (__init__ a) = Ok self →
  rnn_type_supported (rnn_type a) = true
  ∧ ∃ m, embed_matrix a = Some m ∧ dtype_is_float32 (dtype m) = true
         ∧ self = built_self a m.
Proof.
  intros Hinit.
  destruct (rnn_type_supported (rnn_type a)) eqn:Hs;
    [|rewrite init_unsupported in Hinit by done; discriminate].
  split; [done|].
  destruct (embed_matrix a) as [m|] eqn:Hm;
    [|rewrite init_without_matrix in Hinit by done; discriminate].
  destruct (dtype_is_float32 (dtype m)) eqn:Hd;
    [|rewrite (init_wrong_dtype a m) in Hinit by done; discriminate].
  exists m. rewrite (init_success a m) in Hinit by done. by injection Hinit as <-.
Qed.

End Construction.

Section ConstructionClaims.
Context {R : Type} {collab : Collaborators R}.
Import AttentiveRNN.

(** A constructed model always takes one of the two branches that assign
    the locals [o] and [h] in [forward]. *)
Lemma run_rnn_assigns (a : Args) (self : Self) (embed : Tensor3 R) :
  snd (__init__ a) = Ok self →
  run_rnn self embed ≠ Ok None.
Proof.
  intros Hinit. apply init_Ok_inv in Hinit as (Hs & m & Hm & Hd & ->).
  apply rnn_type_supported_cases in Hs.
  unfold run_rnn. cbn [hparams built_self rnn]. unfold_result.
  destruct Hs as [Hs|Hs]; rewrite Hs; repeat case_bool_decide; try done;
    by destruct (RNN_forward _ _).
Qed.

(** Which exceptions the operations can raise: only a read of an
    unassigned local raises [UnboundLocalError], and it names that local. *)
Lemma bind_not_raises {A B : Type} (m : result A) (f : A → result B) (e : exn) :
  m ≠ Err e → (∀ a, f a ≠ Err e) → (m ≫= f) ≠ Err e.
Proof.
  intros Hm Hf. destruct m as [a|e']; [apply Hf|].
  intros [= ->]. by apply Hm.
Qed.

Lemma fmap_not_raises {A B : Type} (m : result A) (f : A → B) (e : exn) :
  m ≠ Err e → (f <$> m) ≠ Err e.
Proof. intros Hm. destruct m as [a|e']; [done|]. intros [= ->]. by apply Hm. Qed.

Lemma py_index_not_unbound (n : nat) (i : Z) (v : string) :
  py_index n i ≠ Err (UnboundLocalError v).
Proof. unfold py_index. by destruct (_ && _). Qed.

Lemma getitem0_not_unbound (t : Tensor3 R) (i : Z) (v : string) :
  getitem0 t i ≠ Err (UnboundLocalError v).
Proof.
  unfold getitem0. apply bind_not_raises; [apply py_index_not_unbound|done].
Qed.

Lemma cat2_dim1_not_unbound (a b : Tensor2 R) (v : string) :
  cat2_dim1 a b ≠ Err (UnboundLocalError v).
Proof. unfold cat2_dim1. by destruct (_ =? _)%nat. Qed.

Lemma cat3_dim2_not_unbound (a b : Tensor3 R) (v : string) :
  cat3_dim2 a b ≠ Err (UnboundLocalError v).
Proof. unfold cat3_dim2. by destruct (_ && _). Qed.

Lemma expand_as_not_unbound (a b : Tensor3 R) (v : string) :
  expand_as a b ≠ Err (UnboundLocalError v).
Proof. unfold expand_as. by destruct (_ && _). Qed.

Lemma call_not_unbound {A : Type} (layer : string) (r : option A) (v : string) :
  call layer r ≠ Err (UnboundLocalError v).
Proof. by destruct r. Qed.

Lemma read_attr_not_unbound {A : Type} (name : string) (r : option A) (v : string) :
  read_attr name r ≠ Err (UnboundLocalError v).
Proof. by destruct r. Qed.

Lemma read_local_other {A : Type} (name : string) (r : option A) (v : string) :
  name ≠ v → read_local name r ≠ Err (UnboundLocalError v).
Proof. intros Hne. destruct r; [done|]. intros [= ?]. done. Qed.

Ltac not_unbound :=
  repeat first
    [ apply getitem0_not_unbound
    | apply py_index_not_unbound
    | apply cat2_dim1_not_unbound
    | apply cat3_dim2_not_unbound
    | apply expand_as_not_unbound
    | apply call_not_unbound
    | apply read_attr_not_unbound
    | apply read_local_other; discriminate
    | apply fmap_not_raises
    | apply bind_not_raises; [|intros ?]
    | discriminate ].

(** The output selection never fails on the locals of [forward]. *)
Lemma process_rnn_outputs_not_unbound_o (self : Self) (o h : Tensor3 R) :
  _process_rnn_outputs self o h ≠ Err (UnboundLocalError "o").
Proof.
  unfold _process_rnn_outputs, attn_inp.
  destruct (with_attention (hparams self)), (attn_concatenate (hparams self)),
    (bidirectional (hparams self)), (use_hidden_state (hparams self));
    not_unbound.
Qed.

(** C3.  A recurrent type that is neither ["lstm"] nor ["gru"] once
    lowered makes the constructor raise the [ValueError] that names it, so
    no model exists to run; and on every model the constructor does
    return, the type is one of the two, and [forward] never fails on the
    locals that only the two branches assign. *)
Theorem rnn_type_checked_at_construction (a : Args) :
  (lower (rnn_type a) ≠ "lstm" → lower (rnn_type a) ≠ "gru" →
   snd (__init__ a)
   = Err (ValueError ("'rnn_type' must be 'lstm' or 'gru', got "
                      +:+ rnn_type a +:+ " instead")))
  ∧ (∀ self, snd (__init__ a) = Ok self →
       (lower (rnn_type (hparams self)) = "lstm"
        ∨ lower (rnn_type (hparams self)) = "gru")
       ∧ ∀ X : Tensor2 R, forward self X ≠ Err (UnboundLocalError "o")).
Proof.
  split.
  - intros H1 H2. apply init_unsupported. by apply rnn_type_unsupported.
  - intros self Hinit. split.
    + apply init_Ok_inv in Hinit as (Hs & m & Hm & Hd & ->).
      by apply rnn_type_supported_cases in Hs.
    + intros X. unfold forward.
      apply bind_not_raises; [apply call_not_unbound|intros embed].
      pose proof (run_rnn_assigns a self embed Hinit) as Hrun.
      destruct (run_rnn self embed) as [[[o h]|]|e] eqn:Er; [|done|].
      * change (mbind ?f (Ok ?x)) with (f x). cbv beta. cbn [read_local].
        change (mbind ?f (Ok ?x)) with (f x). cbv beta.
        apply bind_not_raises; [apply process_rnn_outputs_not_unbound_o|intros y].
        destruct (head_hidden_dims (hparams self)); not_unbound.
      * assert (run_rnn self embed ≠ Err (UnboundLocalError "o")) as Hne.
        { unfold run_rnn. repeat case_bool_decide; not_unbound. }
        rewrite Er in Hne. intros [= ->]. done.
Qed.

End ConstructionClaims.

Section EmbeddingMatrixClaims.
Import AttentiveRNN.

(** The exception of the constructor, if any, does not depend on the
    requested embedding dimension. *)
Lemma init_error_independent_of_embed_dim (a : Args) (d : option Z) (e : exn) :
  snd (__init__ a) = Err e ↔ snd (__init__ (with_embed_dim a d)) = Err e.
Proof.
  destruct (rnn_type_supported (rnn_type a)) eqn:Hs.
  - destruct (embed_matrix a) as [m|] eqn:Hm.
    + destruct (dtype_is_float32 (dtype m)) eqn:Hd.
      * rewrite (init_success a m), (init_success (with_embed_dim a d) m) by done.
        done.
      * rewrite (init_wrong_dtype a m),
          (init_wrong_dtype (with_embed_dim a d) m) by done.
        done.
    + rewrite (init_without_matrix a), (init_without_matrix (with_embed_dim a d))
        by done.
      done.
  - rewrite (init_unsupported a), (init_unsupported (with_embed_dim a d)) by done.
    done.
Qed.

(** C8.  When both an [embed_dim] and a pretrained matrix are given and
    the matrix has another second dimension, the constructor issues the
    warning that names the two dimensions, and the mismatch makes it raise
    nothing: it raises exactly when, and what, it raises for the
    dimension of the matrix as [embed_dim].  On the model it returns, the
    embedding layer, its weight and the recurrent input all have the
    dimension of the matrix, not the requested one. *)
Theorem embed_dim_mismatch_warns_and_matrix_wins (a : Args) (d : Z) (m : ndarray) :
  embed_dim a = Some d →
  embed_matrix a = Some m →
  d ≠ snd (shape m) →
  mismatch_warning d (snd (shape m)) ∈ fst (__init__ a)
  ∧ (∀ e, snd (__init__ a) = Err e
          ↔ snd (__init__ (with_embed_dim a (Some (snd (shape m))))) = Err e)
  ∧ ∀ self, snd (__init__ a) = Ok self →
      embedding_dim (word_embed self) = snd (shape m)
      ∧ snd (weight_shape (word_embed self)) = snd (shape m)
      ∧ ∃ layer, rnn self = Some layer
                 ∧ input_size (rnn_params_of layer) = snd (shape m).
Proof.
  intros Hd Hm Hne. split; [|split].
  - unfold __init__, init_warnings. cbn [fst]. rewrite Hd, Hm.
    destruct (d =? snd (shape m)) eqn:E; [apply Z.eqb_eq in E; done|].
    apply list_elem_of_singleton. reflexivity.
  - intros e. apply init_error_independent_of_embed_dim.
  - intros self Hinit. apply init_Ok_inv in Hinit as (_ & m' & Hm' & _ & ->).
    rewrite Hm in Hm'. injection Hm' as <-.
    split; [done|]. split; [done|].
    exists (built_rnn a (snd (shape m))). split; [done|].
    unfold built_rnn. by case_bool_decide.
Qed.

(** C9, as the code has it.  A pretrained matrix whose element type is not
    [float32] makes the constructor raise, so that no model exists to run:
    the assertion that names the element type when the recurrent type is
    supported, the error that names the recurrent type otherwise. *)
Theorem embed_matrix_dtype_checked (a : Args) (m : ndarray) :
  embed_matrix a = Some m →
  dtype m ≠ float32 →
  snd (__init__ a)
  = Err (if rnn_type_supported (rnn_type a)
         then AssertionError
                ("'embed_matrix' must be of dtype 'float32', got dtype '"
                 +:+ dtype_str (dtype m) +:+ "'")
         else ValueError
                ("'rnn_type' must be 'lstm' or 'gru', got "
                 +:+ rnn_type a +:+ " instead")).
Proof.
  intros Hm Hdt. destruct (rnn_type_supported (rnn_type a)) eqn:Hs.
  - apply init_wrong_dtype; [done|done|]. by destruct (dtype m).
  - by apply init_unsupported.
Qed.

(** C9, as stated, fails: a [float32] matrix of seven rows is accepted for
    a vocabulary of four words. *)
Lemma embed_matrix_row_mismatch_not_rejected :
  ¬ (∀ (a : Args) (m : ndarray),
       embed_matrix a = Some m →
       dtype m ≠ float32 ∨ fst (shape m) ≠ vocab_size a →
       is_Ok (snd (__init__ a)) = false).
Proof.
  intros Hclaim.
  specialize (Hclaim
    (Examples.rnn_args "lstm" false true None
       (Some (mk_ndarray float32 (7, 4))) false true None)
    (mk_ndarray float32 (7, 4)) eq_refl).
  assert (is_Ok (snd (__init__
            (Examples.rnn_args "lstm" false true None
               (Some (mk_ndarray float32 (7, 4))) false true None))) = true)
    as Hok by (vm_compute; reflexivity).
  rewrite Hclaim in Hok; [discriminate|].
  right. cbn. discriminate.
Qed.

End EmbeddingMatrixClaims.

(** ** SAINT: construction *)

Section SaintConstruction.
Context {R : Type}.
Import SAINT.

Lemma add_module_fresh (blks : Sequential R) (name : string) (m : SaintEncoder R) :
  name ∉ blks.*1 → add_module blks name m = blks ++ [(name, m)].
Proof.
  induction blks as [|[n m'] blks IH]; intros Hfresh; [done|].
  simpl in *. apply not_elem_of_cons in Hfresh as [Hne Hfresh].
  case_bool_decide; [congruence|]. by rewrite IH.
Qed.

Lemma foldl_add_module_fresh {A : Type} (f : A → string) (m : SaintEncoder R)
    (l : list A) (acc : Sequential R) :
  NoDup (f <$> l) →
  (∀ x, x ∈ l → f x ∉ acc.*1) →
  foldl (λ blks i, add_module blks (f i) m) acc l
  = acc ++ ((λ i, (f i, m)) <$> l).
Proof.
  revert acc. induction l as [|x l IH]; intros acc Hnd Hfresh.
  - by rewrite app_nil_r.
  - simpl in *. apply NoDup_cons in Hnd as [Hx Hnd].
    rewrite add_module_fresh by (apply Hfresh; left).
    rewrite IH; [by rewrite <- app_assoc|done|].
    intros y Hy. rewrite fmap_app. simpl.
    rewrite elem_of_app, list_elem_of_singleton.
    intros [Hin|Heq]; [by apply (Hfresh y); [right|]|].
    apply Hx. rewrite <- Heq. by apply list_elem_of_fmap_2.
Qed.

(** The block names ["saint_block0"], ["saint_block1"], ... are pairwise
    different, so every index of [range(n_blocks)] registers a block of its
    own. *)
Lemma init_blocks_eq (a : Args) (nf : Z) :
  (init_blocks a nf : Sequential R)
  = (λ i, ("saint_block" +:+ pretty i,
           mkSaintEncoder
             (mkSaintEncoderCfg (input_dim a) (n_heads a) (use_bias a)
                (attn_dropout a) (ff_dropout a) (transformer_activation a) nf)
             None None)) <$> seqZ 0 (n_blocks a).
Proof.
  unfold init_blocks.
  rewrite (foldl_add_module_fresh (λ i : Z, "saint_block" +:+ pretty i)); [done| |].
  - apply (NoDup_fmap_2 (λ i : Z, "saint_block" +:+ pretty i)), NoDup_seqZ.
  - intros x _. simpl. apply not_elem_of_nil.
Qed.

Lemma init_blocks_length (a : Args) (nf : Z) :
  length (init_blocks a nf : Sequential R) = Z.to_nat (n_blocks a).
Proof. by rewrite init_blocks_eq, length_fmap, length_seqZ. Qed.

Lemma init_blocks_cfg (a : Args) (nf : Z) (name : string) (blk : SaintEncoder R) :
  (name, blk) ∈ init_blocks a nf →
  enc_n_heads (enc_cfg blk) = n_heads a
  ∧ enc_input_dim (enc_cfg blk) = input_dim a
  ∧ enc_n_feat (enc_cfg blk) = nf.
Proof.
  rewrite init_blocks_eq. intros (i & [= -> ->] & _)%list_elem_of_fmap. done.
Qed.

Lemma init_mlp_hidden_dims_head (a : Args) (d : Z) :
  head (init_mlp_hidden_dims a d) = Some d.
Proof. unfold init_mlp_hidden_dims. by destruct (mlp_hidden_dims a) as [[|]|]. Qed.

Lemma init_mlp_hidden_dims_cons (a : Args) (d : Z) :
  ∃ rest, init_mlp_hidden_dims a d = d :: rest.
Proof.
  unfold init_mlp_hidden_dims. destruct (mlp_hidden_dims a) as [[|]|]; eauto.
Qed.

(** No statement of the constructor of SAINT raises: it returns the model
    (whenever the constructors of the layers, which are not modelled,
    return). *)
Lemma init_total (a : Args) : __init__ a = Ok (built_self R a).
Proof.
  unfold __init__, built_self.
  destruct (init_mlp_hidden_dims_cons a
              (if bool_decide (is_Some (column_idx a !! "cls_token"))
               then input_dim a
               else (match cat_embed_input a with
                     | Some l => Z.of_nat (length l) | None => 0 end
                     + match continuous_cols a with
                       | Some l => Z.of_nat (length l) | None => 0 end)
                    * input_dim a)) as [rest Hrest].
  cbv zeta. rewrite Hrest, list_getitem_last_cons. unfold_result.
  by rewrite List_last_cons.
Qed.

Lemma last_cons_default {A : Type} (x d : A) (l : list A) :
  last (x :: l) = Some (List.last (x :: l) d).
Proof.
  revert x. induction l as [|y l IH]; intros x; [done|].
  rewrite last_cons_cons, (IH y). done.
Qed.

Lemma built_output_dim_last (a : Args) :
  last (d_hidden (transformer_mlp (built_self R a)))
  = Some (output_dim (built_self R a)).
Proof.
  unfold built_self. cbn [transformer_mlp d_hidden output_dim].
  match goal with |- context [init_mlp_hidden_dims a ?d] =>
    destruct (init_mlp_hidden_dims_cons a d) as [rest ->] end.
  apply last_cons_default.
Qed.

End SaintConstruction.

(** ** SAINT: the forward pass *)

Section SaintForward.
Context {R : Type} {collab : Collaborators R}.
Import SAINT.

(** Lines 243-248 produce one token per configured column, of the width
    the composer was built with. *)
Lemma feature_tokens_shape (self : Self R) (X : Tensor2 R) (x : Tensor3 R) :
  feature_tokens self X = Ok (Some x) →
  size0 x = rows X
  ∧ size1 x = configured_tokens (cat_and_cont_embed self)
  ∧ Z.of_nat (size2 x) = emb_embed_dim (cat_and_cont_embed self).
Proof.
  unfold feature_tokens, configured_tokens.
  destruct (cat_and_cont_embed_forward (cat_and_cont_embed self) X)
    as [[x_cat x_cont]|] eqn:Hc; [|discriminate].
  pose proof (cat_and_cont_embed_present _ _ _ _ Hc) as [Hcat Hcont].
  pose proof (λ t cats, cat_and_cont_embed_cat_shape _ _ _ _ t cats Hc) as Hcs.
  pose proof (λ t conts, cat_and_cont_embed_cont_shape _ _ _ _ t conts Hc) as Hts.
  cbn [call]. change (mbind ?f (Ok ?v)) with (f v). cbv beta iota.
  destruct x_cat as [c|], x_cont as [t|].
  - destruct (emb_embed_input _) as [cats|]; [|by destruct Hcat as [_ Hcat]; specialize (Hcat eq_refl)].
    destruct (emb_continuous_cols _) as [conts|]; [|by destruct Hcont as [_ Hcont]; specialize (Hcont eq_refl)].
    destruct (Hcs c cats eq_refl eq_refl) as (Hc0 & Hc1 & Hc2).
    destruct (Hts t conts eq_refl eq_refl) as (Ht0 & Ht1 & Ht2).
    unfold_result. unfold cat3_dim1.
    destruct (_ && _); [|discriminate]. intros [= <-]. simpl. lia.
  - destruct (emb_embed_input _) as [cats|]; [|by destruct Hcat as [_ Hcat]; specialize (Hcat eq_refl)].
    destruct (emb_continuous_cols _) as [conts|]; [by destruct Hcont as [Hcont _]; specialize (Hcont eq_refl)|].
    destruct (Hcs c cats eq_refl eq_refl) as (Hc0 & Hc1 & Hc2).
    intros [= <-]. lia.
  - destruct (emb_embed_input _) as [cats|]; [by destruct Hcat as [Hcat _]; specialize (Hcat eq_refl)|].
    destruct (emb_continuous_cols _) as [conts|]; [|by destruct Hcont as [_ Hcont]; specialize (Hcont eq_refl)].
    destruct (Hts t conts eq_refl eq_refl) as (Ht0 & Ht1 & Ht2).
    intros [= <-]. lia.
  - discriminate.
Qed.

(** The composer returns neither sequence exactly when nothing is
    configured; only then is the local [x] left unassigned. *)
Lemma feature_tokens_unassigned (self : Self R) (X : Tensor2 R) :
  feature_tokens self X = Ok None →
  emb_embed_input (cat_and_cont_embed self) = None
  ∧ emb_continuous_cols (cat_and_cont_embed self) = None.
Proof.
  unfold feature_tokens.
  destruct (cat_and_cont_embed_forward (cat_and_cont_embed self) X)
    as [[x_cat x_cont]|] eqn:Hc; [|discriminate].
  pose proof (cat_and_cont_embed_present _ _ _ _ Hc) as [Hcat Hcont].
  cbn [call]. change (mbind ?f (Ok ?v)) with (f v). cbv beta iota.
  destruct x_cat as [c|], x_cont as [t|].
  - unfold_result. by destruct (cat3_dim1 c t).
  - discriminate.
  - discriminate.
  - intros _. split; [by apply Hcat|by apply Hcont].
Qed.

Lemma SaintEncoder_call_Ok (blk blk' : SaintEncoder R) (x y : Tensor3 R) :
  SaintEncoder_call blk x = Ok (y, blk') →
  shape3 y = shape3 x ∧ block_after_pass (enc_cfg blk) x blk'.
Proof.
  unfold SaintEncoder_call.
  destruct (SaintEncoder_forward (enc_cfg blk) x) as [[[y' cw] rw]|] eqn:Hf;
    [|discriminate].
  intros [= <- <-].
  destruct (SaintEncoder_forward_shape _ _ _ _ _ Hf) as (Hy & Hcw & Hrw).
  split; [done|]. split; [done|]. exists cw, rw.
  split; [done|]. split; [done|].
  unfold attention_weight_shapes, has_shape4. simpl. lia.
Qed.

(** A pass through the blocks keeps the shape of the token sequence, and
    leaves every block with the weights of this pass. *)
Lemma Sequential_forward_Ok (blks blks' : Sequential R) (x y : Tensor3 R) :
  Sequential_forward blks x = (Ok y, blks') →
  shape3 y = shape3 x
  ∧ Forall2 (λ b b', fst b' = fst b ∧ block_after_pass (enc_cfg (snd b)) x (snd b'))
      blks blks'.
Proof.
  revert x blks'. induction blks as [|[name blk] blks IH]; intros x blks'.
  - intros [= <- <-]. split; [done|constructor].
  - simpl. destruct (SaintEncoder_call blk x) as [[z blk1]|e] eqn:Hcall;
      [|discriminate].
    destruct (Sequential_forward blks z) as [r rest'] eqn:Hrest.
    intros [= -> <-].
    destruct (SaintEncoder_call_Ok _ _ _ _ Hcall) as [Hz Hblk].
    destruct (IH _ _ Hrest) as [Hy Hall].
    split; [congruence|]. constructor; [done|].
    eapply Forall2_impl; [exact Hall|].
    intros [n b] [n' b'] [Hn Hb]. split; [done|].
    unfold block_after_pass in *. injection Hz as H0 H1 H2.
    by rewrite <- H0, <- H1.
Qed.

(** The shape is kept by every block on the way: a pass through the whole
    stack is a pass through any first part followed by the rest. *)
Lemma Sequential_forward_app (blks1 blks2 : Sequential R) (x : Tensor3 R) :
  Sequential_forward (blks1 ++ blks2) x
  = match Sequential_forward blks1 x with
    | (Ok y, blks1') =>
        let '(r, blks2') := Sequential_forward blks2 y in (r, blks1' ++ blks2')
    | (Err e, blks1') => (Err e, blks1' ++ blks2)
    end.
Proof.
  revert x. induction blks1 as [|[name blk] blks1 IH]; intros x.
  - simpl. by destruct (Sequential_forward blks2 x).
  - simpl. destruct (SaintEncoder_call blk x) as [[z blk1]|e]; [|done].
    rewrite IH. destruct (Sequential_forward blks1 z) as [[y|e] blks1']; [|done].
    by destruct (Sequential_forward blks2 y).
Qed.

Lemma collect_attention_weights_after_pass
    (blks blks' : Sequential R) (x : Tensor3 R) :
  Forall2 (λ b b', fst b' = fst b ∧ block_after_pass (enc_cfg (snd b)) x (snd b'))
    blks blks' →
  ∃ ws, collect_attention_weights blks' = Ok ws
        ∧ Forall2 (λ b w, attention_weight_shapes (Z.of_nat (size0 x))
                            (enc_n_heads (enc_cfg (snd b))) (Z.of_nat (size1 x)) w)
            blks ws.
Proof.
  induction 1 as [|[n b] [n' b'] blks blks' [_ (Hcfg & cw & rw & Hcw & Hrw & Hsh)] _ IH].
  - exists []. split; [done|constructor].
  - destruct IH as (ws & Hws & Hall). exists ((cw, rw) :: ws). split.
    + simpl in *. rewrite Hcw, Hrw, Hws. done.
    + by constructor.
Qed.

End SaintForward.

Section SaintClaims.
Context {R : Type} {collab : Collaborators R}.
Import SAINT.

Lemma built_configured_tokens (a : Args) :
  Z.of_nat (configured_tokens (cat_and_cont_embed (built_self R a)))
  = n_feats (built_self R a).
Proof.
  unfold configured_tokens, built_self. simpl.
  destruct (cat_embed_input a), (continuous_cols a); lia.
Qed.

(** A pass through a first part of the stack returns whenever the pass
    through the whole stack does. *)
Lemma Sequential_forward_prefix
    (done rest blks' : Sequential R) (x z : Tensor3 R) :
  Sequential_forward (done ++ rest) x = (Ok z, blks') →
  ∃ y blks1, Sequential_forward done x = (Ok y, blks1).
Proof.
  rewrite Sequential_forward_app.
  destruct (Sequential_forward done x) as [[y|e] blks1]; [by eauto|discriminate].
Qed.

(** C7.  In every forward pass that returns, the token sequence that
    [forward] hands to the transformer blocks has one token per
    categorical and per continuous column, [n_feats = n_cat + n_cont] in
    all, each of width [input_dim]; and the sequence has that same shape
    after every block of the stack. *)
Theorem feature_tokens_count_preserved
    (a : Args) (self self' : Self R) (X y : Tensor2 R) :
  __init__ a = Ok self →
  forward self X = (Ok y, self') →
  n_feats self = n_cat self + n_cont self
  ∧ n_cat self = match cat_embed_input a with
                 | Some l => Z.of_nat (length l) | None => 0 end
  ∧ n_cont self = match continuous_cols a with
                  | Some l => Z.of_nat (length l) | None => 0 end
  ∧ ∃ x, feature_tokens self X = Ok (Some x)
         ∧ has_shape3 x (Z.of_nat (rows X)) (n_feats self) (input_dim a)
         ∧ ∀ done rest,
             transformer_blks self = done ++ rest →
             ∃ z blks1,
               Sequential_forward done x = (Ok z, blks1)
               ∧ has_shape3 z (Z.of_nat (rows X)) (n_feats self) (input_dim a).
Proof.
  rewrite init_total. intros [= <-]. unfold forward.
  destruct (feature_tokens (built_self R a) X) as [[x|]|e] eqn:Hx;
    [|discriminate..].
  cbn [mbind result_mbind result_bind read_local].
  destruct (Sequential_forward (transformer_blks (built_self R a)) x)
    as [r blks'] eqn:Hrun.
  intros [= Hy _]. destruct r as [z|e]; [|discriminate]. clear Hy.
  destruct (feature_tokens_shape _ _ _ Hx) as (H0 & H1 & H2).
  assert (has_shape3 x (Z.of_nat (rows X)) (n_feats (built_self R a)) (input_dim a))
    as Hshape.
  { unfold has_shape3. rewrite H0, H1, H2, built_configured_tokens. done. }
  split; [done|]. split; [done|]. split; [done|].
  exists x. split; [done|]. split; [done|].
  intros done rest Hsplit. rewrite Hsplit in Hrun.
  destruct (Sequential_forward_prefix _ _ _ _ _ Hrun) as (w & blks1 & Hdone).
  exists w, blks1. split; [done|].
  destruct (Sequential_forward_Ok _ _ _ _ Hdone) as [[= E0 E1 E2] _].
  unfold has_shape3 in *. by rewrite E0, E1, E2.
Qed.

(** C4.  After a forward pass of a model with at least one block, the
    [attention_weights] property returns one pair per block, [n_blocks]
    in all; the column attention weights of a pair have the shape
    [(batch, heads, features, features)] and the row attention weights
    [(1, heads, batch, batch)]. *)
Theorem attention_weights_after_forward
    (a : Args) (self self' : Self R) (X y : Tensor2 R) :
  1 ≤ n_blocks a →
  __init__ a = Ok self →
  forward self X = (Ok y, self') →
  ∃ ws, attention_weights self' = Ok ws
        ∧ Z.of_nat (length ws) = n_blocks a
        ∧ Forall (attention_weight_shapes (Z.of_nat (rows X)) (n_heads a)
                    (n_feats self)) ws.
Proof.
  intros Hn. rewrite init_total. intros [= <-]. unfold forward.
  destruct (feature_tokens (built_self R a) X) as [[x|]|e] eqn:Hx;
    [|discriminate..].
  cbn [mbind result_mbind result_bind read_local].
  destruct (Sequential_forward (transformer_blks (built_self R a)) x)
    as [r blks'] eqn:Hrun.
  intros [= Hy <-]. destruct r as [z|e]; [|discriminate]. clear Hy.
  destruct (Sequential_forward_Ok _ _ _ _ Hrun) as [_ Hall].
  destruct (collect_attention_weights_after_pass _ _ _ Hall) as (ws & Hws & Hsh).
  destruct (feature_tokens_shape _ _ _ Hx) as (H0 & H1 & _).
  exists ws. split; [exact Hws|]. split.
  - rewrite <- (Forall2_length _ _ _ Hsh). cbn [transformer_blks built_self].
    rewrite init_blocks_length. lia.
  - apply (Forall2_Forall_r _ _ _ _ Hsh). apply Forall_forall.
    intros [name blk] Hin w Hw. cbn [transformer_blks built_self] in Hin.
    destruct (init_blocks_cfg _ _ _ _ Hin) as (Hh & _).
    cbn [snd] in Hw. rewrite H0, H1, built_configured_tokens, Hh in Hw. exact Hw.
Qed.

(** C5.  The model pools on the summary token exactly when the column
    schema has the key ["cls_token"].  Then [forward] hands the dense
    head, for every sample, the token at position 0 of what the blocks
    returned and nothing of the other tokens, and the head is built for
    inputs of width [input_dim]; otherwise [forward] hands the head all
    tokens of a sample side by side, and the head is built for inputs of
    width [n_feats * input_dim].  What [forward] returns is what the head
    returns on that input. *)
Theorem reduction_by_summary_token
    (a : Args) (self : Self R) (X : Tensor2 R) (x z : Tensor3 R)
    (blks' : Sequential R) :
  __init__ a = Ok self →
  feature_tokens self X = Ok (Some x) →
  Sequential_forward (transformer_blks self) x = (Ok z, blks') →
  (with_cls_token self = true ↔ is_Some (column_idx a !! "cls_token"))
  ∧ head (d_hidden (transformer_mlp self))
    = Some (if with_cls_token self then input_dim a
            else n_feats self * input_dim a)
  ∧ (with_cls_token self = true → (1 ≤ size1 z)%nat →
     ∃ v, fst (forward self X) = call "MLP" (MLP_forward (transformer_mlp self) v)
          ∧ shape2 v = (size0 z, size2 z)
          ∧ ∀ b k, at2 v b k = at3 z b 0%nat k)
  ∧ (with_cls_token self = false →
     ∃ v, fst (forward self X) = call "MLP" (MLP_forward (transformer_mlp self) v)
          ∧ shape2 v = (size0 z, (size1 z * size2 z)%nat)
          ∧ ∀ b f k, (k < size2 z)%nat →
                     at2 v b (f * size2 z + k)%nat = at3 z b f k).
Proof.
  rewrite init_total. intros [= <-] Hx Hrun. split; [|split; [|split]].
  - cbn [with_cls_token built_self]. apply bool_decide_eq_true.
  - cbn [with_cls_token built_self transformer_mlp d_hidden n_feats].
    apply init_mlp_hidden_dims_head.
  - intros Hcls Hz. unfold forward. rewrite Hx.
    cbn [mbind result_mbind result_bind read_local]. rewrite Hrun.
    cbn [fst mbind result_mbind result_bind]. unfold reduce. rewrite Hcls.
    unfold getitem1. rewrite py_index_first by done.
    cbn [mbind result_mbind result_bind].
    eexists. split; [reflexivity|]. done.
  - intros Hcls. unfold forward. rewrite Hx.
    cbn [mbind result_mbind result_bind read_local]. rewrite Hrun.
    cbn [fst mbind result_mbind result_bind]. unfold reduce. rewrite Hcls.
    cbn [mbind result_mbind result_bind].
    eexists. split; [reflexivity|]. split; [done|].
    intros b f k Hk. cbn [flatten1 at2].
    assert ((f * size2 z + k) / size2 z = f)%nat as ->
      by (rewrite Nat.div_add_l by lia; rewrite Nat.div_small by done; lia).
    assert ((f * size2 z + k) mod size2 z = k)%nat as ->
      by (rewrite Nat.add_comm, Nat.Div0.mod_add; by apply Nat.mod_small).
    done.
Qed.

(** C10.  When the composer returns neither token sequence, [forward]
    raises on the unassigned local [x] and no block has run; when
    categorical or continuous columns are configured, [forward] never
    raises for that reason. *)
Theorem forward_needs_a_token_sequence
    (a : Args) (self : Self R) (X : Tensor2 R) :
  __init__ a = Ok self →
  (cat_and_cont_embed_forward (cat_and_cont_embed self) X = Some (None, None) →
   forward self X = (Err (UnboundLocalError "x"), self))
  ∧ (cat_embed_input a ≠ None ∨ continuous_cols a ≠ None →
     fst (forward self X) ≠ Err (UnboundLocalError "x")).
Proof.
  rewrite init_total. intros [= <-]. split.
  - intros Hc. unfold forward, feature_tokens. by rewrite Hc.
  - intros Hcfg. unfold forward.
    destruct (feature_tokens (built_self R a) X) as [[x|]|e] eqn:Hx.
    + cbn [mbind result_mbind result_bind read_local].
      destruct (Sequential_forward _ x) as [r blks'] eqn:Hrun. cbn [fst].
      assert (r ≠ Err (UnboundLocalError "x")) as Hr.
      { clear -Hrun. revert x blks' Hrun.
        induction (transformer_blks (built_self R a)) as [|[n b] blks IH];
          intros x blks'; [by intros [= <- _]|].
        simpl. unfold SaintEncoder_call.
        destruct (SaintEncoder_forward (enc_cfg b) x) as [[[z cw] rw]|].
        - cbn [call mbind result_mbind result_bind].
          destruct (Sequential_forward blks z) as [r' rest'] eqn:Hrest.
          intros [= <- _]. by apply (IH _ _ Hrest).
        - by intros [= <- _]. }
      apply bind_not_raises; [done|intros z].
      apply bind_not_raises; [|intros w; apply call_not_unbound].
      unfold reduce, getitem1. destruct (with_cls_token _); [|done].
      apply bind_not_raises; [apply py_index_not_unbound|done].
    + apply feature_tokens_unassigned in Hx as [Hcat Hcont].
      cbn [cat_and_cont_embed built_self emb_embed_input emb_continuous_cols]
        in Hcat, Hcont.
      destruct Hcfg; done.
    + cbn [mbind result_mbind result_bind fst]. intros [= ->].
      revert Hx. unfold feature_tokens.
      destruct (cat_and_cont_embed_forward _ X) as [[[c|] [t|]]|];
        cbn [call mbind result_mbind result_bind read_local]; try discriminate.
      unfold_result. unfold cat3_dim1. by destruct (_ && _).
Qed.

(** The output of SAINT has the declared width: whenever [forward]
    returns, it returns one vector per sample, of width [output_dim]. *)
Lemma saint_forward_output_dim
    (a : Args) (self self' : Self R) (X y : Tensor2 R) :
  __init__ a = Ok self →
  forward self X = (Ok y, self') →
  has_shape2 y (Z.of_nat (rows X)) (output_dim self).
Proof.
  rewrite init_total. intros [= <-]. unfold forward.
  destruct (feature_tokens (built_self R a) X) as [[x|]|e] eqn:Hx;
    [|discriminate..].
  cbn [mbind result_mbind result_bind read_local].
  destruct (Sequential_forward (transformer_blks (built_self R a)) x)
    as [r blks'] eqn:Hrun.
  intros [= Hy _]. destruct r as [z|e]; [|discriminate].
  destruct (Sequential_forward_Ok _ _ _ _ Hrun) as [[= E0 E1 E2] _].
  destruct (feature_tokens_shape _ _ _ Hx) as (H0 & H1 & H2).
  pose proof (built_configured_tokens a) as Hn. rewrite <- H1 in Hn.
  pose proof (@built_output_dim_last R a) as Hlast.
  apply bind_Ok_inv in Hy as (z' & [= <-] & Hy).
  apply bind_Ok_inv in Hy as (v & Hred & Hmlp).
  apply call_Ok_inv in Hmlp.
  assert (rows v = rows X
          ∧ head (d_hidden (transformer_mlp (built_self R a)))
            = Some (Z.of_nat (cols v))) as [Hrows Hhead].
  { revert Hred. unfold reduce.
    cbn [with_cls_token built_self transformer_mlp d_hidden].
    rewrite init_mlp_hidden_dims_head.
    cbn [emb_embed_dim cat_and_cont_embed built_self] in H2.
    destruct (bool_decide _).
    - unfold getitem1. destruct (py_index _ _); [|discriminate].
      intros [= <-]. simpl. split; [congruence|]. f_equal. lia.
    - intros [= <-]. simpl. split; [congruence|]. f_equal.
      cbn [n_feats built_self] in Hn. rewrite Nat2Z.inj_mul, E1, E2. lia. }
  destruct (MLP_forward_shape _ _ _ Hmlp Hhead) as [Hr Hc].
  injection (eq_trans (eq_sym Hc) Hlast) as Ho.
  unfold has_shape2. split; [congruence|done].
Qed.

End SaintClaims.

(** ** AttentiveRNN: the width of the output *)

Section AttentiveRnnWidth.
Context {R : Type} {collab : Collaborators R}.
Import AttentiveRNN.

Lemma getitem0_Ok_shape (t : Tensor3 R) (i : Z) (v : Tensor2 R) :
  getitem0 t i = Ok v → rows v = size1 t ∧ cols v = size2 t.
Proof.
  unfold getitem0. intros (j & _ & [= <-])%bind_Ok_inv. done.
Qed.

Lemma cat2_dim1_Ok_shape (a b v : Tensor2 R) :
  cat2_dim1 a b = Ok v → rows v = rows a ∧ cols v = (cols a + cols b)%nat.
Proof. unfold cat2_dim1. destruct (_ =? _)%nat; [|discriminate]. by intros [= <-]. Qed.

Lemma expand_as_Ok_shape (t other e : Tensor3 R) :
  expand_as t other = Ok e → shape3 e = shape3 other.
Proof. unfold expand_as. destruct (_ && _); [|discriminate]. by intros [= <-]. Qed.

Lemma cat3_dim2_Ok_shape (a b v : Tensor3 R) :
  cat3_dim2 a b = Ok v →
  size0 v = size0 a ∧ size1 v = size1 a ∧ size2 v = (size2 a + size2 b)%nat.
Proof. unfold cat3_dim2. destruct (_ && _); [|discriminate]. by intros [= <-]. Qed.

(** The width of the selected output, for an output sequence of width
    [D * hidden_dim] and a hidden state of width [hidden_dim], in the
    configurations in which the selection can return: without attention,
    and with attention on a bidirectional stack with [attn_concatenate]. *)
Lemma process_rnn_outputs_width
    (a : Args) (m : ndarray) (o h : Tensor3 R) (y : Tensor2 R) :
  with_attention a = false ∨ (attn_concatenate a = true ∧ bidirectional a = true) →
  Z.of_nat (size2 o) = (if bidirectional a then 2 else 1) * hidden_dim a →
  Z.of_nat (size2 h) = hidden_dim a →
  size1 h = size0 o →
  _process_rnn_outputs (built_self a m) o h = Ok y →
  rows y = size0 o ∧ Z.of_nat (cols y) = snd (init_attention a).
Proof.
  intros Hcfg Ho Hh HB. unfold _process_rnn_outputs, attn_inp.
  cbn [hparams built_self attn]. unfold init_attention.
  destruct (with_attention a) eqn:Hatt.
  - destruct Hcfg as [?|[Hcat Hbi]]; [done|]. rewrite Hcat, Hbi in *.
    cbn [andb fst snd].
    intros (inp & Hinp & Hrest)%bind_Ok_inv.
    apply bind_Ok_inv in Hinp as (h2 & Hh2 & Hinp).
    apply bind_Ok_inv in Hinp as (h1 & Hh1 & Hinp).
    apply bind_Ok_inv in Hinp as (bi & Hbi' & Hinp).
    apply bind_Ok_inv in Hinp as (e & He & Hinp).
    destruct (cat3_dim2 o e) as [t|] eqn:Ht; [|discriminate].
    injection Hinp as <-.
    cbn [read_attr read_local] in Hrest.
    apply bind_Ok_inv in Hrest as (layer & [= <-] & Hrest).
    apply bind_Ok_inv in Hrest as (x & [= <-] & Hrest).
    apply call_Ok_inv in Hrest.
    destruct (ContextAttention_forward_shape _ _ _ Hrest) as [Hr Hc].
    destruct (cat3_dim2_Ok_shape _ _ _ Ht) as (T0 & _ & T2).
    apply expand_as_Ok_shape in He. injection He as _ _ E2.
    rewrite Hr, Hc, T0, T2, E2. split; [done|]. lia.
  - cbn [snd]. destruct (bidirectional a), (use_hidden_state a).
    + intros (h2 & Hh2 & Hy)%bind_Ok_inv.
      apply bind_Ok_inv in Hy as (h1 & Hh1 & Hy).
      destruct (cat2_dim1_Ok_shape _ _ _ Hy) as [Hr Hc].
      destruct (getitem0_Ok_shape _ _ _ Hh2) as [R2 C2].
      destruct (getitem0_Ok_shape _ _ _ Hh1) as [R1 C1].
      rewrite Hr, Hc, R2, C2, C1. split; [done|]. lia.
    + intros [Hr Hc]%getitem0_Ok_shape. simpl in *. split; [done|]. lia.
    + intros [Hr Hc]%getitem0_Ok_shape. split; [congruence|]. lia.
    + intros [Hr Hc]%getitem0_Ok_shape. simpl in *. split; [done|]. lia.
Qed.

(** In those configurations the output of AttentiveRNN has the declared
    width: whenever [forward] returns, it returns one vector per sample,
    of width [output_dim]. *)
Lemma attentive_rnn_forward_output_dim
    (a : Args) (self : Self) (X y : Tensor2 R) :
  with_attention a = false ∨ (attn_concatenate a = true ∧ bidirectional a = true) →
  snd (__init__ a) = Ok self →
  forward self X = Ok y →
  has_shape2 y (Z.of_nat (rows X)) (output_dim self).
Proof.
  intros Hcfg Hinit. apply init_Ok_inv in Hinit as (Hs & m & Hm & Hd & ->).
  unfold forward.
  intros (embed & Hembed%call_Ok_inv & Hy)%bind_Ok_inv.
  apply bind_Ok_inv in Hy as (oh & Hrun & Hy).
  apply bind_Ok_inv in Hy as ([o h] & Hoh & Hy).
  apply bind_Ok_inv in Hy as (p & Hp & Hy).
  destruct oh as [oh|]; [|discriminate]. injection Hoh as ->.
  assert (RNN_forward (built_rnn a (snd (shape m))) embed = Some (o, h)) as Hrnn.
  { revert Hrun. unfold run_rnn. cbn [hparams built_self rnn read_attr].
    repeat case_bool_decide; try discriminate;
      cbn [mbind result_mbind result_bind];
      (destruct (RNN_forward _ embed) as [r|]; [|discriminate]);
      by intros [= ->]. }
  destruct (Embedding_forward_shape _ _ _ Hembed) as (E0 & _ & _).
  destruct (RNN_forward_shape _ _ _ _ Hrnn) as [(O0 & _ & O2) (_ & H1 & H2)].
  assert (rnn_params_of (built_rnn a (snd (shape m)))
          = mk_rnn_params (snd (shape m)) (hidden_dim a) (n_layers a)
              (bidirectional a) (rnn_dropout a) true) as Hp'
    by (unfold built_rnn; by case_bool_decide).
  rewrite Hp' in O2, H2. unfold num_directions in O2. cbn in O2, H2.
  destruct (process_rnn_outputs_width a m o h p Hcfg O2 H2 (eq_trans H1 (eq_sym O0)) Hp)
    as [Pr Pc].
  unfold has_shape2. cbn [output_dim built_self hparams attn_rnn_mlp] in *.
  unfold built_output_dim.
  destruct (head_hidden_dims a) as [dims|].
  - cbn [read_attr] in Hy.
    apply bind_Ok_inv in Hy as (layer & [= <-] & Hy). apply call_Ok_inv in Hy.
    destruct (MLP_forward_shape _ _ _ Hy) as [Yr Yc].
    { cbn. by rewrite Pc. }
    cbn [d_hidden] in Yc.
    rewrite (last_cons_default _ (snd (init_attention a))) in Yc.
    rewrite List_last_cons in Yc. injection Yc as Yc. split; [congruence|done].
  - injection Hy as <-. split; [congruence|done].
Qed.

(** With attention and [attn_concatenate] on a stack that is not
    bidirectional, [forward] returns on no input: the constructor accepts
    the configuration, and the selection of the outputs raises. *)
Lemma forward_attn_inp_unbound (a : Args) (self : Self) (X : Tensor2 R) :
  with_attention a = true → attn_concatenate a = true → bidirectional a = false →
  snd (__init__ a) = Ok self →
  is_Ok (forward self X) = false.
Proof.
  intros Hatt Hcat Hbi Hinit.
  apply init_Ok_inv in Hinit as (Hs & m & Hm & Hd & ->).
  destruct (forward (built_self a m) X) as [y|e] eqn:Hf; [|done].
  revert Hf. unfold forward.
  intros (embed & _ & Hy)%bind_Ok_inv.
  apply bind_Ok_inv in Hy as (oh & _ & Hy).
  apply bind_Ok_inv in Hy as ([o h] & _ & Hy).
  apply bind_Ok_inv in Hy as (p & Hp & _).
  rewrite (process_rnn_outputs_attn_inp_unbound (built_self a m)
             (mkContextAttention (hidden_dim a * 2) (attn_dropout a) true)) in Hp;
    [discriminate|done..|].
  cbn [attn built_self]. unfold init_attention. by rewrite Hatt, Hcat, Hbi.
Qed.

End AttentiveRnnWidth.

(** ** The claims at concrete inputs *)

Section ConcreteInputs.
Import Examples.

(** The example models are the ones the constructor returns. *)
Lemma rnn_self_constructed (bidirectional use_hidden_state with_attention
                            attn_concatenate : bool) :
  snd (AttentiveRNN.__init__
         (rnn_args "lstm" bidirectional use_hidden_state None (Some matrix_4x4)
            with_attention attn_concatenate None))
  = Ok (rnn_self bidirectional use_hidden_state with_attention attn_concatenate).
Proof.
  destruct bidirectional, use_hidden_state, with_attention, attn_concatenate;
    vm_compute; reflexivity.
Qed.

(** The selection on numbers: the last two slices of a [(2, 2, 2)] hidden
    state side by side, and the last of three timesteps. *)
Example process_rnn_outputs_values :
  to_lists2 <$> AttentiveRNN._process_rnn_outputs (collab := Reference.collaborators)
                  (rnn_self true true false true) (output_seq 4) (hidden_state 2 2)
  = Ok [[-1; -2; -101; -102]; [-11; -12; -111; -112]]
  ∧ to_lists2 <$> AttentiveRNN._process_rnn_outputs (collab := Reference.collaborators)
                    (rnn_self false false false true) (output_seq 4) (hidden_state 1 4)
    = Ok [[20; 21; 22; 23]; [120; 121; 122; 123]].
Proof. split; vm_compute; reflexivity. Qed.

(** C1.  [AttentiveRNN(vocab_size=4, hidden_dim=4, n_layers=1,
    padding_idx=0, embed_matrix=<4x4 float32>, with_attention=True)], the
    other arguments at their defaults ([attn_concatenate=True],
    [bidirectional=False]): the constructor returns a model and stores
    [output_dim = 8], twice the hidden width; [forward] on that model
    returns no vector for any input and any implementation of the called
    layers, and where the layers themselves succeed it raises on the
    unassigned local [attn_inp]. *)
Theorem forward_raises_where_output_dim_is_declared :
  ∃ self,
    AttentiveRNN.__init__
      (rnn_args "lstm" false true None (Some matrix_4x4) true true None)
    = ([], Ok self)
    ∧ AttentiveRNN.output_dim self = 8
    ∧ (∀ (R : Type) (collab : Collaborators R) (X : Tensor2 R),
         is_Ok (AttentiveRNN.forward self X) = false)
    ∧ AttentiveRNN.forward (collab := Reference.collaborators) self X_text
      = Err (UnboundLocalError "attn_inp").
Proof.
  eexists. split; [vm_compute; reflexivity|]. split; [reflexivity|]. split.
  - intros R collab X.
    by apply (forward_attn_inp_unbound
                (rnn_args "lstm" false true None (Some matrix_4x4) true true None)).
  - vm_compute. reflexivity.
Qed.

(** C2.  With attention and [attn_concatenate] set on a stack that is not
    bidirectional, the output selection raises on the unassigned local
    [attn_inp] instead of feeding the attention layer the output sequence
    joined with the final hidden state; and with [attn_concatenate] not
    set, the attention layer is not fed the output sequence alone: a
    [(2, 3, 4)] sequence reaches it as a [(2, 3, 8)] tensor, joined with a
    broadcast copy of the final hidden state. *)
Theorem attention_input_departs_from_policy :
  (∀ (R : Type) (collab : Collaborators R) (use_hidden_state : bool)
     (output hidden : Tensor3 R),
     AttentiveRNN._process_rnn_outputs
       (rnn_self false use_hidden_state true true) output hidden
     = Err (UnboundLocalError "attn_inp"))
  ∧ ∃ t, AttentiveRNN.attn_inp (rnn_self false true true false)
           (output_seq 4) (hidden_state 1 4)
         = Ok (Some t)
         ∧ shape3 (output_seq 4) = (2, 3, 4)%nat
         ∧ shape3 t = (2, 3, 8)%nat
         ∧ tensor3_eq t (output_with_broadcast (output_seq 4)
                           (final_hidden_state (hidden_state 1 4))).
Proof.
  split.
  - intros R collab uhs output hidden.
    by eapply process_rnn_outputs_attn_inp_unbound.
  - destruct (attn_inp_without_concatenate (rnn_self false true true false)
                (output_seq 4) (hidden_state 1 4))
      as (t & Ht & Heq); [reflexivity|simpl; lia|reflexivity|reflexivity|].
    exists t. split; [exact Ht|]. split; [reflexivity|]. split; [|exact Heq].
    destruct Heq as [Hs _]. rewrite Hs. reflexivity.
Qed.

Lemma rnn_type_checked_at_construction_witness :
  snd (AttentiveRNN.__init__
         (rnn_args "rnn" false true None (Some matrix_4x4) false true None))
  = Err (ValueError "'rnn_type' must be 'lstm' or 'gru', got rnn instead")
  ∧ AttentiveRNN.forward (collab := Reference.collaborators)
      (AttentiveRNN.built_self
         (rnn_args "GRU" true false None (Some matrix_4x4) false true None)
         matrix_4x4)
      X_text
    ≠ Err (UnboundLocalError "o").
Proof.
  split.
  - apply (proj1 (rnn_type_checked_at_construction
                    (collab := Reference.collaborators)
                    (rnn_args "rnn" false true None (Some matrix_4x4)
                       false true None)));
      vm_compute; discriminate.
  - apply (proj2 (rnn_type_checked_at_construction
                    (collab := Reference.collaborators)
                    (rnn_args "GRU" true false None (Some matrix_4x4)
                       false true None))).
    vm_compute. reflexivity.
Defined.

Lemma process_rnn_outputs_without_attention_witness :
  AttentiveRNN._process_rnn_outputs (collab := Reference.collaborators)
    (rnn_self true true false true) (output_seq 4) (hidden_state 2 2)
  = Ok (final_hidden_state_bidirectional (hidden_state 2 2))
  ∧ AttentiveRNN._process_rnn_outputs (collab := Reference.collaborators)
      (rnn_self false false false true) (output_seq 4) (hidden_state 1 4)
    = Ok (last_timestep (output_seq 4)).
Proof.
  split.
  - apply (process_rnn_outputs_without_attention
             (rnn_self true true false true) (output_seq 4) (hidden_state 2 2));
      [reflexivity|simpl; lia|simpl; lia].
  - apply (process_rnn_outputs_without_attention
             (rnn_self false false false true) (output_seq 4) (hidden_state 1 4));
      [reflexivity|simpl; lia|simpl; lia].
Defined.

Lemma embed_dim_mismatch_warns_and_matrix_wins_witness :
  AttentiveRNN.UserWarning
    "the input embedding dimension 8 and the dimension of the pretrained embeddings 4 do not match. The pretrained embeddings dimension (4) will be used"
  ∈ fst (AttentiveRNN.__init__
           (rnn_args "LSTM" false true (Some 8) (Some matrix_4x4) false true None))
  ∧ ∃ self layer,
      snd (AttentiveRNN.__init__
             (rnn_args "LSTM" false true (Some 8) (Some matrix_4x4) false true None))
      = Ok self
      ∧ embedding_dim (AttentiveRNN.word_embed self) = 4
      ∧ snd (weight_shape (AttentiveRNN.word_embed self)) = 4
      ∧ AttentiveRNN.rnn self = Some layer
      ∧ input_size (rnn_params_of layer) = 4.
Proof.
  destruct (embed_dim_mismatch_warns_and_matrix_wins
              (rnn_args "LSTM" false true (Some 8) (Some matrix_4x4) false true None)
              8 matrix_4x4 eq_refl eq_refl ltac:(simpl; lia))
    as (Hwarn & _ & Hself).
  split; [exact Hwarn|].
  destruct (Hself _ eq_refl) as (He & Hw & layer & Hl & Hi).
  eexists. exists layer. split; [reflexivity|]. by repeat split.
Defined.

Lemma embed_matrix_dtype_checked_witness :
  snd (AttentiveRNN.__init__
         (rnn_args "lstm" false true None
            (Some (AttentiveRNN.mk_ndarray AttentiveRNN.float64 (4, 4)))
            false true None))
  = Err (AssertionError
           "'embed_matrix' must be of dtype 'float32', got dtype 'float64'").
Proof.
  apply (embed_matrix_dtype_checked
           (rnn_args "lstm" false true None
              (Some (AttentiveRNN.mk_ndarray AttentiveRNN.float64 (4, 4)))
              false true None)
           (AttentiveRNN.mk_ndarray AttentiveRNN.float64 (4, 4)) eq_refl).
  simpl. discriminate.
Defined.

End ConcreteInputs.

Section SaintConcreteInputs.
Import Examples.

Lemma scenario_pass_eq :
  SAINT.forward (collab := Reference.collaborators)
    (SAINT.built_self Z scenario_args) X_tab
  = (Ok scenario_output, snd scenario_pass).
Proof. vm_compute. reflexivity. Defined.

Lemma scenario_tokens_eq :
  SAINT.feature_tokens (collab := Reference.collaborators)
    (SAINT.built_self Z scenario_args) X_tab
  = Ok (Some scenario_tokens).
Proof. vm_compute. reflexivity. Defined.

Lemma scenario_blocks_pass_eq :
  SAINT.Sequential_forward (collab := Reference.collaborators)
    (SAINT.transformer_blks (SAINT.built_self Z scenario_args)) scenario_tokens
  = (Ok scenario_tokens_after_blocks, snd scenario_blocks_pass).
Proof. vm_compute. reflexivity. Defined.

Lemma attention_weights_after_forward_witness :
  ∃ ws, SAINT.attention_weights (snd scenario_pass) = Ok ws
        ∧ Z.of_nat (length ws) = 2
        ∧ Forall (attention_weight_shapes 5 8 5) ws.
Proof.
  apply (attention_weights_after_forward (collab := Reference.collaborators)
           scenario_args (SAINT.built_self Z scenario_args) (snd scenario_pass)
           X_tab scenario_output);
    [simpl; lia|vm_compute; reflexivity|exact scenario_pass_eq].
Defined.

Lemma cls_tokens_eq :
  SAINT.feature_tokens (collab := Reference.collaborators)
    (SAINT.built_self Z cls_args) X_tab_cls
  = Ok (Some cls_tokens).
Proof. vm_compute. reflexivity. Defined.

Lemma cls_blocks_pass_eq :
  SAINT.Sequential_forward (collab := Reference.collaborators)
    (SAINT.transformer_blks (SAINT.built_self Z cls_args)) cls_tokens
  = (Ok cls_tokens_after_blocks, snd cls_blocks_pass).
Proof. vm_compute. reflexivity. Defined.

Lemma reduction_by_summary_token_witness :
  (∃ v, fst (SAINT.forward (collab := Reference.collaborators)
               (SAINT.built_self Z cls_args) X_tab_cls)
        = call "MLP"
            (Reference.ref_MLP_forward
               (SAINT.transformer_mlp (SAINT.built_self Z cls_args)) v)
        ∧ shape2 v = (5, 32)%nat
        ∧ ∀ b k, at2 v b k = at3 cls_tokens_after_blocks b 0%nat k)
  ∧ (∃ v, fst (SAINT.forward (collab := Reference.collaborators)
                 (SAINT.built_self Z scenario_args) X_tab)
          = call "MLP"
              (Reference.ref_MLP_forward
                 (SAINT.transformer_mlp (SAINT.built_self Z scenario_args)) v)
          ∧ shape2 v = (5, 5 * 32)%nat
          ∧ ∀ b f k, (k < 32)%nat →
                     at2 v b (f * 32 + k)%nat
                     = at3 scenario_tokens_after_blocks b f k).
Proof.
  split.
  - apply (proj1 (proj2 (proj2 (reduction_by_summary_token
             (collab := Reference.collaborators)
             cls_args (SAINT.built_self Z cls_args) X_tab_cls cls_tokens
             cls_tokens_after_blocks (snd cls_blocks_pass)
             ltac:(vm_compute; reflexivity) cls_tokens_eq cls_blocks_pass_eq))));
      [vm_compute; reflexivity|simpl; lia].
  - apply (proj2 (proj2 (proj2 (reduction_by_summary_token
             (collab := Reference.collaborators)
             scenario_args (SAINT.built_self Z scenario_args) X_tab
             scenario_tokens scenario_tokens_after_blocks
             (snd scenario_blocks_pass)
             ltac:(vm_compute; reflexivity) scenario_tokens_eq
             scenario_blocks_pass_eq))));
      vm_compute; reflexivity.
Defined.

Lemma feature_tokens_count_preserved_witness :
  SAINT.n_feats (SAINT.built_self Z scenario_args) = 4 + 1
  ∧ ∃ x, SAINT.feature_tokens (collab := Reference.collaborators)
           (SAINT.built_self Z scenario_args) X_tab = Ok (Some x)
         ∧ has_shape3 x 5 5 32
         ∧ ∃ z blks1,
             SAINT.Sequential_forward (collab := Reference.collaborators)
               (SAINT.transformer_blks (SAINT.built_self Z scenario_args)) x
             = (Ok z, blks1)
             ∧ has_shape3 z 5 5 32.
Proof.
  destruct (feature_tokens_count_preserved (collab := Reference.collaborators)
              scenario_args (SAINT.built_self Z scenario_args) (snd scenario_pass)
              X_tab scenario_output
              ltac:(vm_compute; reflexivity) scenario_pass_eq)
    as (Hn & Hcat & Hcont & x & Hx & Hshape & Hblocks).
  split; [rewrite Hn, Hcat, Hcont; reflexivity|].
  exists x. split; [exact Hx|]. split; [exact Hshape|].
  apply (Hblocks (SAINT.transformer_blks (SAINT.built_self Z scenario_args)) []).
  by rewrite app_nil_r.
Defined.

Lemma forward_needs_a_token_sequence_witness :
  SAINT.forward (collab := Reference.collaborators)
    (SAINT.built_self Z no_columns_args) X_tab
  = (Err (UnboundLocalError "x"), SAINT.built_self Z no_columns_args)
  ∧ fst scenario_pass ≠ Err (UnboundLocalError "x").
Proof.
  split.
  - apply (proj1 (forward_needs_a_token_sequence
                    (collab := Reference.collaborators) no_columns_args
                    (SAINT.built_self Z no_columns_args) X_tab
                    ltac:(vm_compute; reflexivity))).
    vm_compute. reflexivity.
  - apply (proj2 (forward_needs_a_token_sequence
                    (collab := Reference.collaborators) scenario_args
                    (SAINT.built_self Z scenario_args) X_tab
                    ltac:(vm_compute; reflexivity))).
    left. simpl. discriminate.
Defined.

(** The scenario of the specification: the output has shape
    [(5, output_dim)], the last width of the dense head. *)
Lemma scenario_output_shape :
  has_shape2 scenario_output 5 (SAINT.output_dim (SAINT.built_self Z scenario_args))
  ∧ SAINT.output_dim (SAINT.built_self Z scenario_args) = 320.
Proof.
  split; [|vm_compute; reflexivity].
  apply (saint_forward_output_dim (collab := Reference.collaborators)
           scenario_args _ (snd scenario_pass) X_tab);
    [vm_compute; reflexivity|exact scenario_pass_eq].
Qed.

End SaintConcreteInputs.

(** * Further properties of attentive_rnn.py *)

Section AttentiveRnnConstruction.
Import AttentiveRNN.

Lemma dtype_is_float32_eq (d : np_dtype) : dtype_is_float32 d = true ↔ d = float32.
Proof. destruct d; simpl; split; congruence. Qed.

(** X1.  The constructor returns a model only for a supported recurrent
    type and a pretrained matrix of element type [float32]: every model
    that exists was built from such a matrix. *)
Theorem attentive_rnn_constructed_only_from_matrix (a : Args) (self : Self) :
  snd (__init__ a) = Ok self →
  (lower (rnn_type a) = "lstm" ∨ lower (rnn_type a) = "gru")
  ∧ ∃ m, embed_matrix a = Some m ∧ dtype m = float32.
Proof.
  intros Hinit. apply init_Ok_inv in Hinit as (Hs & m & Hm & Hd & _).
  split; [by apply rnn_type_supported_cases|].
  exists m. split; [done|]. by apply dtype_is_float32_eq.
Qed.

(** X2.  Without a pretrained matrix the constructor never returns a
    model, whether or not [embed_dim] is given: with a supported recurrent
    type it issues no warning and raises on the local [embed_dim] of
    [_set_embeddings], read before any assignment. *)
Theorem construction_without_matrix_raises (a : Args) :
  rnn_type_supported (rnn_type a) = true →
  embed_matrix a = None →
  __init__ a = ([], Err (UnboundLocalError "embed_dim")).
Proof.
  intros Hs Hm. rewrite (surjective_pairing (__init__ a)). f_equal.
  - unfold __init__, init_warnings. cbn [fst]. rewrite Hm.
    by destruct (embed_dim a).
  - by apply init_without_matrix.
Qed.

(** X3.  The spelling of the recurrent type matters up to case only: two
    configurations that differ in the case of the letters of [rnn_type]
    build the same embedding, recurrent, attention and head layers and the
    same [output_dim]. *)
Theorem rnn_type_case_insensitive (a : Args) (s : string) (self : Self) :
  lower s = lower (rnn_type a) →
  snd (__init__ a) = Ok self →
  ∃ self', snd (__init__ (with_rnn_type a s)) = Ok self'
           ∧ word_embed self' = word_embed self
           ∧ rnn self' = rnn self
           ∧ attn self' = attn self
           ∧ attn_rnn_mlp self' = attn_rnn_mlp self
           ∧ output_dim self' = output_dim self.
Proof.
  intros Hlow Hinit. apply init_Ok_inv in Hinit as (Hs & m & Hm & Hd & ->).
  exists (built_self (with_rnn_type a s) m). split.
  - apply init_success; [|done|done].
    unfold rnn_type_supported in *. cbn [with_rnn_type rnn_type]. by rewrite Hlow.
  - unfold built_self, built_rnn, built_output_dim, init_attention.
    cbn [with_rnn_type rnn_type word_embed rnn attn attn_rnn_mlp output_dim
         vocab_size padding_idx embed_trainable hidden_dim n_layers bidirectional
         rnn_dropout with_attention attn_concatenate attn_dropout
         head_hidden_dims head_activation head_dropout head_batchnorm
         head_batchnorm_last head_linear_first].
    by rewrite Hlow.
Qed.

Lemma init_attention_width (a : Args) : snd (init_attention a) = selected_width a.
Proof.
  unfold init_attention, selected_width.
  by destruct (with_attention a), (bidirectional a), (attn_concatenate a).
Qed.

Lemma List_last_default {A : Type} (l : list A) (d : A) :
  List.last l d = default d (last l).
Proof.
  destruct l as [|x l]; [done|]. by rewrite (last_cons_default x d).
Qed.

(** X4.  The [output_dim] of a constructed model is the last width of
    [head_hidden_dims] when that list is given and not empty; with an
    empty list or without a head it is the width of the selected recurrent
    output: [hidden_dim] times four with attention on a bidirectional
    stack with [attn_concatenate], times two when the stack is
    bidirectional or (with attention) [attn_concatenate] is set, and
    [hidden_dim] itself otherwise. *)
Theorem attentive_rnn_output_dim_table (a : Args) (self : Self) :
  snd (__init__ a) = Ok self →
  output_dim self
  = match head_hidden_dims a with
    | Some dims => default (selected_width a) (last dims)
    | None => selected_width a
    end.
Proof.
  intros Hinit. apply init_Ok_inv in Hinit as (_ & m & _ & _ & ->).
  cbn [output_dim built_self]. unfold built_output_dim.
  rewrite init_attention_width.
  destruct (head_hidden_dims a) as [dims|]; [|done].
  apply List_last_default.
Qed.

(** X5.  The layers of a constructed model fit together: the recurrent
    layer takes inputs of the width of the embedding, which is the second
    dimension of the matrix; an attention layer exists exactly with
    [with_attention], sums along the sequence and is built for the width
    of the selected output; a head exists exactly when [head_hidden_dims]
    is given, and its first width is the width of the selected output,
    followed by the given widths. *)
Theorem attentive_rnn_layers_fit (a : Args) (self : Self) :
  snd (__init__ a) = Ok self →
  (∃ layer, rnn self = Some layer
            ∧ input_size (rnn_params_of layer) = embedding_dim (word_embed self)
            ∧ hidden_size (rnn_params_of layer) = hidden_dim a
            ∧ num_layers (rnn_params_of layer) = n_layers a
            ∧ rnn_bidirectional (rnn_params_of layer) = bidirectional a
            ∧ batch_first (rnn_params_of layer) = true)
  ∧ attn self
    = (if with_attention a
       then Some (mkContextAttention (selected_width a) (attn_dropout a) true)
       else None)
  ∧ d_hidden <$> attn_rnn_mlp self
    = (λ dims, selected_width a :: dims) <$> head_hidden_dims a.
Proof.
  intros Hinit. apply init_Ok_inv in Hinit as (_ & m & _ & _ & ->).
  split; [|split].
  - exists (built_rnn a (snd (shape m))). split; [done|].
    unfold built_rnn. by case_bool_decide.
  - cbn [attn built_self]. rewrite <- init_attention_width.
    unfold init_attention. by destruct (with_attention a).
  - cbn [attn_rnn_mlp built_self]. rewrite init_attention_width.
    by destruct (head_hidden_dims a).
Qed.

End AttentiveRnnConstruction.

Section RaisesOnly.

Lemma raises_only_bind {A B : Type} (P : exn → Prop) (m : result A)
    (f : A → result B) :
  raises_only P m → (∀ a, m = Ok a → raises_only P (f a)) →
  raises_only P (m ≫= f).
Proof.
  intros Hm Hf e. destruct m as [a|e']; [by apply Hf|].
  intros [= ->]. by apply Hm.
Qed.

Lemma raises_only_fmap {A B : Type} (P : exn → Prop) (m : result A) (f : A → B) :
  raises_only P m → raises_only P (f <$> m).
Proof. intros Hm e. destruct m as [a|e']; [done|]. intros [= ->]. by apply Hm. Qed.

Lemma raises_only_Ok {A : Type} (P : exn → Prop) (a : A) : raises_only P (Ok a).
Proof. by intros e. Qed.

Lemma raises_only_impl {A : Type} (P Q : exn → Prop) (m : result A) :
  (∀ e, P e → Q e) → raises_only P m → raises_only Q m.
Proof. intros HPQ Hm e He. by apply HPQ, Hm. Qed.

Lemma py_index_raises (n : nat) (i : Z) : raises_only torch_error (py_index n i).
Proof. unfold py_index. intros e. destruct (_ && _); [done|]. by intros [= <-]. Qed.

Lemma call_raises {A : Type} (layer : string) (r : option A) :
  raises_only (layer_error [layer]) (call layer r).
Proof.
  intros e. destruct r; [done|]. intros [= <-]. simpl. by apply list_elem_of_singleton.
Qed.

Lemma layer_error_weaken (l1 l2 : list string) (e : exn) :
  l1 ⊆ l2 → layer_error l1 e → layer_error l2 e.
Proof. intros Hsub. destruct e; try done. simpl. apply Hsub. Qed.

End RaisesOnly.

Section TensorRaises.
Context {R : Type}.

Lemma getitem0_raises (t : Tensor3 R) (i : Z) : raises_only torch_error (getitem0 t i).
Proof.
  unfold getitem0. apply raises_only_bind; [apply py_index_raises|].
  intros j _. apply raises_only_Ok.
Qed.

Lemma getitem1_raises (t : Tensor3 R) (i : Z) :
  raises_only (λ e, ∃ msg, e = IndexError msg) (getitem1 t i).
Proof.
  unfold getitem1, py_index. intros e.
  destruct (_ && _); [done|]. intros [= <-]. by eexists.
Qed.

Lemma cat2_dim1_raises (a b : Tensor2 R) : raises_only torch_error (cat2_dim1 a b).
Proof. unfold cat2_dim1. intros e. destruct (_ =? _)%nat; [done|]. by intros [= <-]. Qed.

Lemma cat3_dim2_raises (a b : Tensor3 R) : raises_only torch_error (cat3_dim2 a b).
Proof. unfold cat3_dim2. intros e. destruct (_ && _); [done|]. by intros [= <-]. Qed.

Lemma expand_as_raises (a b : Tensor3 R) : raises_only torch_error (expand_as a b).
Proof. unfold expand_as. intros e. destruct (_ && _); [done|]. by intros [= <-]. Qed.

(** An index from the end beyond the first element is out of range. *)
Lemma py_index_before_start (n k : nat) :
  (n < k)%nat → ∃ msg, py_index n (- Z.of_nat k) = Err (IndexError msg).
Proof.
  intros Hk. unfold py_index.
  destruct (- Z.of_nat k <? 0) eqn:E; [|apply Z.ltb_ge in E; lia].
  destruct (0 <=? - Z.of_nat k + Z.of_nat n) eqn:E1; [apply Z.leb_le in E1; lia|].
  by eexists.
Qed.

Lemma getitem0_before_start (t : Tensor3 R) (k : nat) :
  (size0 t < k)%nat → ∃ msg, getitem0 t (- Z.of_nat k) = Err (IndexError msg).
Proof.
  intros Hk. unfold getitem0.
  destruct (py_index_before_start _ _ Hk) as [msg ->]. by exists msg.
Qed.

End TensorRaises.

Section AttentiveRnnForward.
Context {R : Type} {collab : Collaborators R}.
Import AttentiveRNN.

(** X6.  Without attention the output selection checks its bounds: on a
    bidirectional stack with [use_hidden_state], a hidden state of fewer
    than two slices raises [IndexError], as does an empty hidden state on
    a unidirectional stack; without [use_hidden_state], an output
    sequence of no timestep raises [IndexError]. *)
Theorem process_rnn_outputs_out_of_range
    (self : Self) (output hidden : Tensor3 R) :
  with_attention (hparams self) = false →
  (if use_hidden_state (hparams self)
   then (size0 hidden < (if bidirectional (hparams self) then 2 else 1))%nat
   else size1 output = 0%nat) →
  ∃ msg, _process_rnn_outputs self output hidden = Err (IndexError msg).
Proof.
  intros Hatt Hrange. unfold _process_rnn_outputs. rewrite Hatt.
  destruct (use_hidden_state (hparams self)), (bidirectional (hparams self)).
  - destruct (getitem0_before_start hidden 2 Hrange) as [msg Hmsg].
    exists msg. change (-2) with (- Z.of_nat 2). by rewrite Hmsg.
  - destruct (getitem0_before_start hidden 1 Hrange) as [msg Hmsg].
    by exists msg.
  - destruct (getitem0_before_start (permute102 output) 1) as [msg Hmsg];
      [simpl; lia|by exists msg].
  - destruct (getitem0_before_start (permute102 output) 1) as [msg Hmsg];
      [simpl; lia|by exists msg].
Qed.

(** X7.  With attention and [attn_concatenate] not set, the broadcast of
    the last hidden slice over the output sequence raises a
    [RuntimeError] whenever the two widths differ and the hidden width is
    not one, as on every bidirectional stack with a hidden width of two or
    more: the output selection returns nothing there. *)
Theorem process_rnn_outputs_broadcast_mismatch
    (self : Self) (output hidden : Tensor3 R) :
  with_attention (hparams self) = true →
  attn_concatenate (hparams self) = false →
  (1 ≤ size0 hidden)%nat →
  size2 hidden ≠ size2 output →
  size2 hidden ≠ 1%nat →
  ∃ msg, _process_rnn_outputs self output hidden = Err (RuntimeError msg).
Proof.
  intros Hatt Hcat HL Hne H1. unfold _process_rnn_outputs, attn_inp.
  rewrite Hatt, Hcat, getitem0_last by done.
  unfold expand_as, expandable, unsqueeze1, final_hidden_state.
  cbn [size0 size1 size2 rows cols mbind result_mbind result_bind].
  apply Nat.eqb_neq in Hne, H1. rewrite Hne, H1, !andb_false_r.
  by eexists.
Qed.

Ltac raises_torch :=
  repeat first
    [ apply getitem0_raises
    | apply cat2_dim1_raises
    | apply expand_as_raises
    | apply cat3_dim2_raises
    | apply raises_only_fmap
    | apply raises_only_bind; [|intros ? _] ].

Ltac one_layer_of :=
  intros ? ->%list_elem_of_singleton; rewrite !elem_of_cons; tauto.

(** The exceptions of the output selection of a model with its attention
    layer in place. *)
Lemma process_rnn_outputs_raises (self : Self) (o h : Tensor3 R) :
  (with_attention (hparams self) = true → is_Some (attn self)) →
  raises_only
    (λ e, layer_error ["ContextAttention"] e
          ∨ torch_error e
          ∨ (e = UnboundLocalError "attn_inp"
             ∧ with_attention (hparams self) = true
             ∧ attn_concatenate (hparams self) = true
             ∧ bidirectional (hparams self) = false))
    (_process_rnn_outputs self o h).
Proof.
  intros Hattn. unfold _process_rnn_outputs, attn_inp.
  destruct (with_attention (hparams self)) eqn:Hatt.
  - destruct (Hattn eq_refl) as [layer ->]. cbn [read_attr].
    assert (∀ inp : option (Tensor3 R),
              inp ≠ None →
              raises_only (layer_error ["ContextAttention"])
                (Ok layer ≫= λ layer,
                   read_local "attn_inp" inp ≫= λ x,
                     call "ContextAttention" (ContextAttention_forward layer x)))
      as Hcall.
    { intros [x|] Hx; [|done]. intros e He. eapply call_raises, He. }
    destruct (attn_concatenate (hparams self)) eqn:Hcat;
      [destruct (bidirectional (hparams self)) eqn:Hbi|].
    + apply raises_only_bind.
      * eapply raises_only_impl; [intros e He; right; left; exact He|].
        raises_torch.
      * intros inp Hinp.
        eapply raises_only_impl; [intros e He; left; exact He|].
        apply Hcall. intros ->.
        repeat (apply bind_Ok_inv in Hinp as (? & _ & Hinp)).
        discriminate Hinp.
    + intros e [= <-]. by right; right.
    + apply raises_only_bind.
      * eapply raises_only_impl; [intros e He; right; left; exact He|].
        raises_torch.
      * intros inp Hinp.
        eapply raises_only_impl; [intros e He; left; exact He|].
        apply Hcall. intros ->.
        repeat (apply bind_Ok_inv in Hinp as (? & _ & Hinp)).
        discriminate Hinp.
  - eapply raises_only_impl; [intros e He; right; left; exact He|].
    destruct (bidirectional (hparams self)), (use_hidden_state (hparams self));
      raises_torch.
Qed.

(** X8.  Where [forward] can fail on a constructed model: in one of the
    layers it calls (embedding, recurrent stack, attention, head), in the
    tensor operations of the output selection (an index out of range, a
    concatenation or a broadcast on shapes that do not fit), or on the
    unassigned local [attn_inp], the latter only with attention and
    [attn_concatenate] on a stack that is not bidirectional.  The
    statements of [forward] and of the selection raise nothing else: no
    attribute they read is missing, and no other local is read
    unassigned. *)
Theorem attentive_rnn_forward_exceptions
    (a : Args) (self : Self) (X : Tensor2 R) (e : exn) :
  snd (__init__ a) = Ok self →
  forward self X = Err e →
  layer_error ["Embedding"; "LSTM"; "GRU"; "ContextAttention"; "MLP"] e
  ∨ torch_error e
  ∨ (e = UnboundLocalError "attn_inp"
     ∧ with_attention a = true ∧ attn_concatenate a = true
     ∧ bidirectional a = false).
Proof.
  intros Hinit. pose proof Hinit as Hinv.
  apply init_Ok_inv in Hinv as (Hs & m & Hm & Hd & ->).
  revert e. change (raises_only
    (λ e, layer_error ["Embedding"; "LSTM"; "GRU"; "ContextAttention"; "MLP"] e
          ∨ torch_error e
          ∨ (e = UnboundLocalError "attn_inp"
             ∧ with_attention a = true ∧ attn_concatenate a = true
             ∧ bidirectional a = false))
    (forward (built_self a m) X)).
  unfold forward.
  apply raises_only_bind.
  { intros e He. left.
    eapply layer_error_weaken; [|eapply call_raises, He]. one_layer_of. }
  intros embed _. apply raises_only_bind.
  { intros e He. left. revert He. unfold run_rnn.
    cbn [rnn built_self read_attr mbind result_mbind result_bind].
    repeat case_bool_decide; try done;
      (destruct (RNN_forward _ embed); [done|]); intros [= <-];
      cbn [layer_error]; rewrite !elem_of_cons; tauto. }
  intros oh Hrun.
  pose proof (run_rnn_assigns a _ embed Hinit) as Hne. rewrite Hrun in Hne.
  destruct oh as [[o h]|]; [|done]. cbn [read_local].
  change (mbind ?f (Ok ?x)) with (f x). cbv beta iota.
  apply raises_only_bind.
  { eapply raises_only_impl;
      [|apply (process_rnn_outputs_raises (built_self a m));
        cbn [hparams attn built_self]; unfold init_attention; by intros ->].
    cbn [hparams built_self]. intros e [He|[He|He]]; [left|by right; left|by right; right].
    eapply layer_error_weaken; [|exact He]. one_layer_of. }
  intros p _. cbn [hparams attn_rnn_mlp built_self].
  destruct (head_hidden_dims a); [|apply raises_only_Ok].
  cbn [read_attr]. change (mbind ?f (Ok ?x)) with (f x). cbv beta.
  intros e He. left.
  eapply layer_error_weaken; [|eapply call_raises, He]. one_layer_of.
Qed.

End AttentiveRnnForward.

Section AttentiveRnnComposition.
Context {R : Type} {collab : Collaborators R}.
Import AttentiveRNN.

(** The recurrent layer of a constructed model is the one [forward]
    calls, under either type name. *)
Lemma run_rnn_built (a : Args) (m : ndarray) (embed : Tensor3 R) :
  rnn_type_supported (rnn_type a) = true →
  ∃ name, run_rnn (built_self a m) embed
          = Some <$> call name (RNN_forward (built_rnn a (snd (shape m))) embed).
Proof.
  intros Hs. apply rnn_type_supported_cases in Hs.
  unfold run_rnn. cbn [hparams rnn built_self read_attr].
  destruct Hs as [Hs|Hs]; rewrite Hs; repeat case_bool_decide; try done;
    eexists; reflexivity.
Qed.

(** X9.  Without attention, [forward] is the composition of the layers
    with the selection of section 4.3 and nothing else: when the embedding
    and the recurrent layer return, for at least one recurrent layer and
    sequences of at least one token, [forward] returns the selected tensor
    itself when there is no head, and what the head returns on the
    selected tensor when there is one. *)
Theorem forward_without_attention
    (a : Args) (self : Self) (X : Tensor2 R) (embed o h : Tensor3 R)
    (layer : RNNModule) :
  snd (__init__ a) = Ok self →
  with_attention a = false →
  1 ≤ n_layers a →
  (1 ≤ cols X)%nat →
  Embedding_forward (word_embed self) X = Some embed →
  rnn self = Some layer →
  RNN_forward layer embed = Some (o, h) →
  forward self X
  = match attn_rnn_mlp self with
    | Some mlp => call "MLP" (MLP_forward mlp (selected_output a o h))
    | None => Ok (selected_output a o h)
    end.
Proof.
  intros Hinit Hatt Hlayers HT Hembed Hlayer Hrnn.
  apply init_Ok_inv in Hinit as (Hs & m & Hm & Hd & ->).
  cbn [rnn built_self] in Hlayer. injection Hlayer as <-.
  destruct (Embedding_forward_shape _ _ _ Hembed) as (_ & E1 & _).
  destruct (RNN_forward_shape _ _ _ _ Hrnn) as [(_ & O1 & _) (H0 & _ & _)].
  assert (rnn_params_of (built_rnn a (snd (shape m)))
          = mk_rnn_params (snd (shape m)) (hidden_dim a) (n_layers a)
              (bidirectional a) (rnn_dropout a) true) as Hp
    by (unfold built_rnn; by case_bool_decide).
  rewrite Hp in H0. unfold num_directions in H0. cbn in H0.
  assert (_process_rnn_outputs (built_self a m) o h = Ok (selected_output a o h))
    as Hsel.
  { unfold _process_rnn_outputs, selected_output. cbn [hparams built_self].
    rewrite Hatt.
    destruct (bidirectional a), (use_hidden_state a).
    - apply cat_last_two. nia.
    - apply getitem0_last_permuted. lia.
    - apply getitem0_last. nia.
    - apply getitem0_last_permuted. lia. }
  unfold forward. rewrite Hembed. cbn [call].
  change (mbind ?f (Ok ?x)) with (f x). cbv beta.
  destruct (run_rnn_built a m embed Hs) as [name ->]. rewrite Hrnn.
  cbn [call fmap result_fmap read_local].
  change (mbind ?f (Ok ?x)) with (f x). cbv beta iota.
  cbn [read_local]. change (mbind ?f (Ok ?x)) with (f x). cbv beta iota.
  rewrite Hsel. change (mbind ?f (Ok ?x)) with (f x). cbv beta.
  cbn [hparams attn_rnn_mlp built_self]. by destruct (head_hidden_dims a).
Qed.

(** X10.  The width of the tensor handed to the attention layer, against
    the width the constructor built that layer for, on the tensors a
    recurrent stack returns: with [attn_concatenate] on a bidirectional
    stack the two agree; with neither, the layer is handed twice the width
    it was built for. *)
Theorem attention_input_width_against_layer
    (a : Args) (self : Self) (layer : ContextAttention) (o h : Tensor3 R) :
  snd (__init__ a) = Ok self →
  attn self = Some layer →
  size1 h = size0 o →
  Z.of_nat (size2 h) = hidden_dim a →
  Z.of_nat (size2 o) = (if bidirectional a then 2 else 1) * hidden_dim a →
  ((if bidirectional a then 2 else 1) ≤ size0 h)%nat →
  (attn_concatenate a = true → bidirectional a = true →
   ∃ t, attn_inp self o h = Ok (Some t)
        ∧ Z.of_nat (size2 t) = attn_input_dim layer)
  ∧ (attn_concatenate a = false → bidirectional a = false →
     ∃ t, attn_inp self o h = Ok (Some t)
          ∧ Z.of_nat (size2 t) = 2 * attn_input_dim layer).
Proof.
  intros Hinit Hlayer HB Hh Ho HL.
  apply init_Ok_inv in Hinit as (Hs & m & Hm & Hd & ->).
  cbn [attn built_self] in Hlayer. unfold init_attention in Hlayer.
  destruct (with_attention a); [|done]. cbn [fst] in Hlayer.
  injection Hlayer as <-. cbn [attn_input_dim].
  split; intros Hcat Hbi; rewrite Hcat, Hbi in *; cbn [andb orb].
  - destruct (attn_inp_bidirectional_concatenate (built_self a m) o h)
      as (t & Ht & [[= _ _ Hw] _]); try done; [lia|].
    exists t. split; [done|]. rewrite Hw. cbn. lia.
  - destruct (attn_inp_without_concatenate (built_self a m) o h)
      as (t & Ht & [[= _ _ Hw] _]); try done; [lia|].
    exists t. split; [done|]. rewrite Hw. cbn. lia.
Qed.

End AttentiveRnnComposition.

(** * Further properties of saint.py *)

Section SaintConstructionExtras.
Context {R : Type}.
Import SAINT.

(** X11.  The dense head of SAINT is built on the width [l] of the
    reduced token sequence ([input_dim] with a summary token,
    [n_feats * input_dim] without): with [mlp_hidden_dims] absent or
    empty its widths are [l, 4 l, 2 l] and [output_dim] is [2 l]; with a
    list given they are [l] followed by the list, and [output_dim] is the
    last width of the list. *)
Theorem saint_output_dim_table (a : Args) (self : Self R) :
  __init__ a = Ok self →
  let l := saint_attn_output_dim a in
  match mlp_hidden_dims a with
  | None | Some [] =>
      d_hidden (transformer_mlp self) = [l; l * 4; l * 2]
      ∧ output_dim self = l * 2
  | Some dims =>
      d_hidden (transformer_mlp self) = l :: dims
      ∧ last dims = Some (output_dim self)
  end.
Proof.
  rewrite init_total. intros [= <-]. cbv zeta.
  cbn [transformer_mlp d_hidden output_dim built_self].
  change (if bool_decide (is_Some (column_idx a !! "cls_token"))
          then input_dim a
          else (match cat_embed_input a with
                | Some l => Z.of_nat (length l) | None => 0 end
                + match continuous_cols a with
                  | Some l => Z.of_nat (length l) | None => 0 end) * input_dim a)
    with (saint_attn_output_dim a).
  unfold init_mlp_hidden_dims.
  destruct (mlp_hidden_dims a) as [[|d dims]|]; [done| |done].
  split; [done|].
  change ([saint_attn_output_dim a] ++ d :: dims)
    with (saint_attn_output_dim a :: d :: dims).
  rewrite (List_last_cons _ 0 (d :: dims)).
  apply last_cons_default.
Qed.

(** X12.  The constructor registers one block per index of
    [range(n_blocks)], none when [n_blocks] is zero or negative: the
    blocks are named ["saint_block0"], ["saint_block1"], ... in this
    order, all names differ, and every block has the configuration of the
    model, [n_feats] for its number of features, and no recorded
    weights. *)
Theorem saint_blocks_in_order (a : Args) (self : Self R) :
  __init__ a = Ok self →
  fst <$> transformer_blks self
  = (λ i : Z, "saint_block" +:+ pretty i) <$> seqZ 0 (n_blocks a)
  ∧ NoDup (fst <$> transformer_blks self)
  ∧ length (transformer_blks self) = Z.to_nat (n_blocks a)
  ∧ Forall (λ b, snd b
                 = mkSaintEncoder
                     (mkSaintEncoderCfg (input_dim a) (n_heads a) (use_bias a)
                        (attn_dropout a) (ff_dropout a)
                        (transformer_activation a) (n_feats self))
                     None None)
      (transformer_blks self).
Proof.
  rewrite init_total. intros [= <-].
  cbn [transformer_blks n_feats built_self]. rewrite init_blocks_eq.
  rewrite <- list_fmap_compose.
  split; [done|]. split; [|split].
  - apply (NoDup_fmap_2 (λ i : Z, "saint_block" +:+ pretty i)), NoDup_seqZ.
  - by rewrite length_fmap, length_seqZ.
  - apply Forall_fmap, Forall_forall. by intros i _.
Qed.

End SaintConstructionExtras.

Section SaintForwardExtras.
Context {R : Type} {collab : Collaborators R}.
Import SAINT.

(** The two token sequences of the composer always fit: their
    concatenation raises no shape error. *)
Lemma composer_sequences_fit
    (e : SameSizeCatAndContEmbeddings) (X : Tensor2 R) (c t : Tensor3 R) :
  cat_and_cont_embed_forward e X = Some (Some c, Some t) →
  size0 c = size0 t ∧ size2 c = size2 t.
Proof.
  intros Hc.
  pose proof (cat_and_cont_embed_present _ _ _ _ Hc) as [Hcat Hcont].
  destruct (emb_embed_input e) as [cats|] eqn:Ecats;
    [|by destruct Hcat as [_ Hcat]; specialize (Hcat eq_refl)].
  destruct (emb_continuous_cols e) as [conts|] eqn:Econts;
    [|by destruct Hcont as [_ Hcont]; specialize (Hcont eq_refl)].
  destruct (cat_and_cont_embed_cat_shape _ _ _ _ c cats Hc eq_refl Ecats)
    as (C0 & _ & C2).
  destruct (cat_and_cont_embed_cont_shape _ _ _ _ t conts Hc eq_refl Econts)
    as (T0 & _ & T2).
  lia.
Qed.


Lemma feature_tokens_raises (self : Self R) (X : Tensor2 R) :
  raises_only (layer_error ["SameSizeCatAndContEmbeddings"]) (feature_tokens self X).
Proof.
  unfold feature_tokens.
  destruct (cat_and_cont_embed_forward (cat_and_cont_embed self) X)
    as [[x_cat x_cont]|] eqn:Hc;
    [|intros e [= <-]; by apply list_elem_of_singleton].
  cbn [call]. change (mbind ?f (Ok ?x)) with (f x). cbv beta iota.
  destruct x_cat as [c|], x_cont as [t|]; try apply raises_only_Ok.
  destruct (composer_sequences_fit _ _ _ _ Hc) as [H0 H2].
  cbn [read_local]. change (mbind ?f (Ok ?x)) with (f x). cbv beta.
  unfold cat3_dim1. rewrite H0, H2, !Nat.eqb_refl. apply raises_only_Ok.
Qed.

Lemma Sequential_forward_raises (blks : Sequential R) (x : Tensor3 R) :
  raises_only (layer_error ["SaintEncoder"]) (fst (Sequential_forward blks x)).
Proof.
  revert x. induction blks as [|[name blk] blks IH]; intros x; [apply raises_only_Ok|].
  simpl. unfold SaintEncoder_call.
  destruct (SaintEncoder_forward (enc_cfg blk) x) as [[[y cw] rw]|].
  - cbn [call mbind result_mbind result_bind].
    specialize (IH y). by destruct (Sequential_forward blks y).
  - intros e [= <-]. by apply list_elem_of_singleton.
Qed.

Ltac one_of_layers :=
  intros ? ->%list_elem_of_singleton; rewrite !elem_of_cons; tauto.

(** X14.  The exceptions of [SAINT.forward]: the failure of one of the
    three called layers, the read of the unassigned local [x], or, with a
    summary token only, the [IndexError] of [x[:, 0, :]].  The
    concatenation of the token sequences never raises. *)
Theorem saint_forward_exceptions (self : Self R) (X : Tensor2 R) (e : exn) :
  fst (forward self X) = Err e →
  layer_error ["SameSizeCatAndContEmbeddings"; "SaintEncoder"; "MLP"] e
  ∨ e = UnboundLocalError "x"
  ∨ (with_cls_token self = true ∧ ∃ msg, e = IndexError msg).
Proof.
  unfold forward.
  destruct (feature_tokens self X) as [[x|]|e'] eqn:Hx.
  - cbn [mbind result_mbind result_bind read_local].
    pose proof (Sequential_forward_raises (transformer_blks self) x) as Hblks.
    destruct (Sequential_forward (transformer_blks self) x) as [r blks'].
    cbn [fst] in *. destruct r as [z|e'].
    + cbn [mbind result_mbind result_bind]. unfold reduce.
      destruct (with_cls_token self).
      * destruct (getitem1 z 0) as [v|e'] eqn:Hv.
        -- cbn [mbind result_mbind result_bind]. intros He. left.
           eapply layer_error_weaken; [|eapply call_raises, He]. one_of_layers.
        -- intros [= <-]. right. right. split; [done|].
           by apply (getitem1_raises z 0).
      * cbn [mbind result_mbind result_bind]. intros He. left.
        eapply layer_error_weaken; [|eapply call_raises, He]. one_of_layers.
    + intros [= <-]. left.
      eapply layer_error_weaken; [|by apply Hblks]. one_of_layers.
  - intros [= <-]. by right; left.
  - intros [= <-]. left.
    eapply layer_error_weaken; [|by apply (feature_tokens_raises self X)].
    one_of_layers.
Qed.


End SaintForwardExtras.

Section SaintEdgeCases.
Context {R : Type} {collab : Collaborators R}.
Import SAINT.

Lemma py_index_of_empty (i : Z) : ∃ msg, py_index 0 i = Err (IndexError msg).
Proof.
  unfold py_index.
  destruct ((0 <=? _) && (_ <? Z.of_nat 0)) eqn:E; [|by eexists].
  apply andb_true_iff in E as [E1 E2].
  apply Z.leb_le in E1. apply Z.ltb_lt in E2.
  destruct (i <? 0) eqn:E3; [apply Z.ltb_lt in E3|]; lia.
Qed.

(** X16.  A summary token in the schema without any feature column (an
    empty [cat_embed_input] and no continuous column): once the composer
    and the blocks have returned, [forward] raises [IndexError], for the
    token sequence has no token at position 0. *)
Theorem summary_token_without_columns
    (a : Args) (self : Self R) (X : Tensor2 R) (x z : Tensor3 R)
    (blks' : Sequential R) :
  __init__ a = Ok self →
  with_cls_token self = true →
  n_feats self = 0 →
  feature_tokens self X = Ok (Some x) →
  Sequential_forward (transformer_blks self) x = (Ok z, blks') →
  ∃ msg, fst (forward self X) = Err (IndexError msg).
Proof.
  rewrite init_total. intros [= <-] Hcls Hn Hx Hrun.
  destruct (feature_tokens_shape _ _ _ Hx) as (_ & H1 & _).
  pose proof (@built_configured_tokens R a) as Hc. rewrite <- H1, Hn in Hc.
  destruct (Sequential_forward_Ok _ _ _ _ Hrun) as [[= _ E1 _] _].
  unfold forward. rewrite Hx.
  cbn [mbind result_mbind result_bind read_local]. rewrite Hrun.
  cbn [fst mbind result_mbind result_bind]. unfold reduce. rewrite Hcls.
  unfold getitem1. replace (size1 z) with 0%nat by lia.
  destruct (py_index_of_empty 0) as [msg ->]. by exists msg.
Qed.

(** X17.  With [n_blocks] zero or negative the model has no block: the
    [attention_weights] property returns the empty list, and [forward] is
    the composer, the reduction and the dense head in sequence, leaving
    the model as it was. *)
Theorem saint_without_blocks (a : Args) (self : Self R) :
  n_blocks a ≤ 0 →
  __init__ a = Ok self →
  transformer_blks self = []
  ∧ attention_weights self = Ok []
  ∧ ∀ X : Tensor2 R,
      forward self X
      = (x ← feature_tokens self X ≫= read_local "x";
         v ← reduce self x;
         call "MLP" (MLP_forward (transformer_mlp self) v),
         self).
Proof.
  intros Hn. rewrite init_total. intros [= <-].
  assert (transformer_blks (built_self R a) = []) as Hblks.
  { cbn [transformer_blks built_self]. by rewrite init_blocks_eq, seqZ_nil. }
  split; [done|]. split; [unfold attention_weights; by rewrite Hblks|].
  intros X. unfold forward.
  destruct (feature_tokens (built_self R a) X ≫= read_local "x") as [x|e]; [|done].
  rewrite Hblks. cbn [Sequential_forward]. f_equal.
  unfold set_transformer_blks. rewrite <- Hblks. done.
Qed.

End SaintEdgeCases.

(** ** The further properties at concrete inputs *)

Section ExtraConcreteInputs.
Import Examples.

Lemma attentive_rnn_constructed_only_from_matrix_witness :
  ("gru" = "lstm" ∨ "gru" = "gru")
  ∧ ∃ m, Some matrix_4x4 = Some m
         ∧ AttentiveRNN.dtype m = AttentiveRNN.float32.
Proof.
  exact (attentive_rnn_constructed_only_from_matrix text_args text_self
           ltac:(vm_compute; reflexivity)).
Defined.

Lemma construction_without_matrix_raises_witness :
  AttentiveRNN.__init__ (rnn_args "lstm" false true (Some 4) None false true None)
  = ([], Err (UnboundLocalError "embed_dim")).
Proof.
  apply (construction_without_matrix_raises
           (rnn_args "lstm" false true (Some 4) None false true None));
    reflexivity.
Defined.

Lemma rnn_type_case_insensitive_witness :
  ∃ self', snd (AttentiveRNN.__init__ (with_rnn_type text_args "GrU")) = Ok self'
           ∧ AttentiveRNN.word_embed self' = AttentiveRNN.word_embed text_self
           ∧ AttentiveRNN.rnn self' = AttentiveRNN.rnn text_self
           ∧ AttentiveRNN.attn self' = AttentiveRNN.attn text_self
           ∧ AttentiveRNN.attn_rnn_mlp self' = AttentiveRNN.attn_rnn_mlp text_self
           ∧ AttentiveRNN.output_dim self' = AttentiveRNN.output_dim text_self.
Proof.
  apply (rnn_type_case_insensitive text_args "GrU" text_self);
    [reflexivity|vm_compute; reflexivity].
Defined.

Lemma attentive_rnn_output_dim_table_witness :
  AttentiveRNN.output_dim text_self = 3
  ∧ AttentiveRNN.output_dim (rnn_self true true true true) = 16.
Proof.
  split.
  - exact (attentive_rnn_output_dim_table text_args text_self
             ltac:(vm_compute; reflexivity)).
  - exact (attentive_rnn_output_dim_table
             (rnn_args "lstm" true true None (Some matrix_4x4) true true None)
             (rnn_self true true true true) ltac:(vm_compute; reflexivity)).
Defined.

Lemma attentive_rnn_layers_fit_witness :
  (∃ layer, AttentiveRNN.rnn text_self = Some layer
            ∧ input_size (rnn_params_of layer) = 4
            ∧ hidden_size (rnn_params_of layer) = 4
            ∧ num_layers (rnn_params_of layer) = 1
            ∧ rnn_bidirectional (rnn_params_of layer) = true
            ∧ batch_first (rnn_params_of layer) = true)
  ∧ AttentiveRNN.attn text_self = None
  ∧ d_hidden <$> AttentiveRNN.attn_rnn_mlp text_self = Some [8; 3].
Proof.
  exact (attentive_rnn_layers_fit text_args text_self
           ltac:(vm_compute; reflexivity)).
Defined.

Lemma process_rnn_outputs_out_of_range_witness :
  ∃ msg, AttentiveRNN._process_rnn_outputs (collab := Reference.collaborators)
           (rnn_self true true false true) (output_seq 4) (hidden_state 1 4)
         = Err (IndexError msg).
Proof.
  apply (process_rnn_outputs_out_of_range (collab := Reference.collaborators)
           (rnn_self true true false true) (output_seq 4) (hidden_state 1 4));
    [reflexivity|simpl; lia].
Defined.

Lemma process_rnn_outputs_broadcast_mismatch_witness :
  ∃ msg, AttentiveRNN._process_rnn_outputs (collab := Reference.collaborators)
           (rnn_self true true true false) (output_seq 4) (hidden_state 2 2)
         = Err (RuntimeError msg).
Proof.
  apply (process_rnn_outputs_broadcast_mismatch (collab := Reference.collaborators)
           (rnn_self true true true false) (output_seq 4) (hidden_state 2 2));
    [reflexivity|reflexivity|simpl; lia|simpl; lia|simpl; lia].
Defined.

Lemma attentive_rnn_forward_exceptions_witness :
  layer_error ["Embedding"; "LSTM"; "GRU"; "ContextAttention"; "MLP"]
    (UnboundLocalError "attn_inp")
  ∨ torch_error (UnboundLocalError "attn_inp")
  ∨ (UnboundLocalError "attn_inp" = UnboundLocalError "attn_inp"
     ∧ true = true ∧ true = true ∧ false = false).
Proof.
  apply (attentive_rnn_forward_exceptions (collab := Reference.collaborators)
           (rnn_args "lstm" false true None (Some matrix_4x4) true true None)
           (rnn_self false true true true) X_text (UnboundLocalError "attn_inp"));
    vm_compute; reflexivity.
Defined.

Lemma forward_without_attention_witness :
  AttentiveRNN.forward (collab := Reference.collaborators) text_self X_text
  = call "MLP"
      (Reference.ref_MLP_forward
         (mkMLP [8; 3] "relu" None false false false)
         (last_timestep (fst text_rnn_out))).
Proof.
  apply (forward_without_attention (collab := Reference.collaborators)
           text_args text_self X_text text_embed
           (fst text_rnn_out) (snd text_rnn_out)
           (AttentiveRNN.built_rnn text_args 4));
    [vm_compute; reflexivity|reflexivity|simpl; lia|simpl; lia
    |vm_compute; reflexivity|vm_compute; reflexivity|vm_compute; reflexivity].
Defined.

Lemma attention_input_width_against_layer_witness :
  (∃ t, AttentiveRNN.attn_inp (rnn_self true true true true)
          (output_seq 8) (hidden_state 2 4) = Ok (Some t)
        ∧ Z.of_nat (size2 t) = 16)
  ∧ (∃ t, AttentiveRNN.attn_inp (rnn_self false true true false)
            (output_seq 4) (hidden_state 1 4) = Ok (Some t)
          ∧ Z.of_nat (size2 t) = 2 * 4).
Proof.
  split.
  - apply (proj1 (attention_input_width_against_layer
             (rnn_args "lstm" true true None (Some matrix_4x4) true true None)
             (rnn_self true true true true)
             (mkContextAttention 16 (1 # 10) true)
             (output_seq 8) (hidden_state 2 4)
             ltac:(vm_compute; reflexivity) ltac:(reflexivity)
             ltac:(reflexivity) ltac:(reflexivity) ltac:(reflexivity)
             ltac:(simpl; lia))); reflexivity.
  - apply (proj2 (attention_input_width_against_layer
             (rnn_args "lstm" false true None (Some matrix_4x4) true false None)
             (rnn_self false true true false)
             (mkContextAttention 4 (1 # 10) true)
             (output_seq 4) (hidden_state 1 4)
             ltac:(vm_compute; reflexivity) ltac:(reflexivity)
             ltac:(reflexivity) ltac:(reflexivity) ltac:(reflexivity)
             ltac:(simpl; lia))); reflexivity.
Defined.

Lemma saint_output_dim_table_witness :
  (d_hidden (SAINT.transformer_mlp (SAINT.built_self Z scenario_args))
   = [160; 640; 320]
   ∧ SAINT.output_dim (SAINT.built_self Z scenario_args) = 320)
  ∧ (d_hidden (SAINT.transformer_mlp (SAINT.built_self Z cls_args)) = [32; 64; 16]
     ∧ last [64; 16] = Some (SAINT.output_dim (SAINT.built_self Z cls_args))).
Proof.
  split.
  - exact (saint_output_dim_table scenario_args (SAINT.built_self Z scenario_args)
             ltac:(vm_compute; reflexivity)).
  - exact (saint_output_dim_table cls_args (SAINT.built_self Z cls_args)
             ltac:(vm_compute; reflexivity)).
Defined.

Lemma saint_blocks_in_order_witness :
  fst <$> SAINT.transformer_blks (SAINT.built_self Z scenario_args)
  = ["saint_block0"; "saint_block1"]
  ∧ length (SAINT.transformer_blks (SAINT.built_self Z no_blocks_args)) = 0%nat.
Proof.
  split.
  - exact (proj1 (saint_blocks_in_order scenario_args
                    (SAINT.built_self Z scenario_args)
                    ltac:(vm_compute; reflexivity))).
  - exact (proj1 (proj2 (proj2 (saint_blocks_in_order no_blocks_args
                    (SAINT.built_self Z no_blocks_args)
                    ltac:(vm_compute; reflexivity))))).
Defined.


Lemma saint_forward_exceptions_witness :
  layer_error ["SameSizeCatAndContEmbeddings"; "SaintEncoder"; "MLP"]
    (UnboundLocalError "x")
  ∨ UnboundLocalError "x" = UnboundLocalError "x"
  ∨ (SAINT.with_cls_token (SAINT.built_self Z no_columns_args) = true
     ∧ ∃ msg, UnboundLocalError "x" = IndexError msg).
Proof.
  apply (saint_forward_exceptions (collab := Reference.collaborators)
           (SAINT.built_self Z no_columns_args) X_tab (UnboundLocalError "x")).
  vm_compute. reflexivity.
Defined.


Lemma summary_token_without_columns_witness :
  ∃ msg, fst (SAINT.forward (collab := Reference.collaborators)
                (SAINT.built_self Z cls_without_columns_args) X_tab)
         = Err (IndexError msg).
Proof.
  apply (summary_token_without_columns (collab := Reference.collaborators)
           cls_without_columns_args (SAINT.built_self Z cls_without_columns_args)
           X_tab empty_tokens empty_tokens (snd empty_tokens_pass));
    vm_compute; reflexivity.
Defined.

Lemma saint_without_blocks_witness :
  SAINT.transformer_blks (SAINT.built_self Z no_blocks_args) = []
  ∧ SAINT.attention_weights (SAINT.built_self Z no_blocks_args) = Ok [].
Proof.
  destruct (saint_without_blocks (collab := Reference.collaborators)
              no_blocks_args (SAINT.built_self Z no_blocks_args)
              ltac:(simpl; lia) ltac:(vm_compute; reflexivity))
    as (Hblks & Hweights & _).
  by split.
Defined.

End ExtraConcreteInputs.
